(** * Variant-score ingestion, lookup and merge: a shallow embedding

    The development follows the Python sources of the back end:
    - [tools/cadd.py]: [parse_variant], [write_vcf], [parse_tsv],
      [download_cadd_scores], [cadd_pipeline];
    - [scripts/revel.py]: [RevelTable.init_table];
    - [tools/revel/revel.py]: [revel_initiator.prepare_revel_database],
      [assign_revel_scores], [get_single_revel_score];
    - [routes/workspace_apply_route.py]: [get_workspace_apply_cadd].

    Python values are modelled as the code uses them: [str] as [string],
    [dict] as [gmap], lists as [list], exceptions as an explicit outcome. *)

From Stdlib Require Import ZArith Ascii String SpecFloat DecimalString.
From stdpp Require Import base option list gmap strings.

Local Open Scope string_scope.
Local Open Scope list_scope.

(** ** The Python runtime pieces the sources rely on *)

Module Py.

(** Exception classes that occur in the modelled code. *)
Inductive exn : Type :=
| ValueError
| AttributeError
| TypeError
| KeyError
| IndexError
| OverflowError
| UnboundLocalError
| FileExistsError
| FileNotFoundError
| RuntimeError
| OperationalError
| TimeoutException
| WebDriverException
| InvalidIndexError.

#[global] Instance exn_eq_dec : EqDecision exn.
Proof. solve_decision. Defined.

(** The result of running a piece of code: it returns or it raises. *)
Inductive outcome (A : Type) : Type :=
| Returned (a : A)
| Raised (e : exn).
Arguments Returned {A} a.
Arguments Raised {A} e.

Definition bind {A B} (m : outcome A) (k : A -> outcome B) : outcome B :=
  match m with
  | Returned a => k a
  | Raised e => Raised e
  end.

#[global] Instance outcome_ret : MRet outcome := @Returned.
#[global] Instance outcome_bind : MBind outcome := fun A B k m => bind m k.

(** [try: body except: handler]; a handler answers [None] for the
    exception classes it does not list.  What the handler itself raises is
    not offered to its sibling clauses. *)
Definition try_except {A} (body : outcome A)
    (handler : exn -> option (outcome A)) : outcome A :=
  match body with
  | Returned a => Returned a
  | Raised e => match handler e with
                | Some h => h
                | None => Raised e
                end
  end.

#[global] Instance spec_float_eq_dec : EqDecision spec_float.
Proof. solve_decision. Defined.

(** A scalar: [None], a [str], an [int], a [float], or pandas' [pd.NA]. *)
Inductive pyval : Type :=
| PyNone
| PyStr (s : string)
| PyInt (z : Z)
| PyFloat (x : spec_float)
| PyNA.

#[global] Instance pyval_eq_dec : EqDecision pyval.
Proof. solve_decision. Defined.

(** [s.split(sep)] for a one-character separator: every occurrence of
    [sep] separates two parts, so the empty string has one (empty) part. *)
Fixpoint split (sep : ascii) (s : string) : list string :=
  match s with
  | EmptyString => [EmptyString]
  | String c s' =>
      if Ascii.eqb c sep then EmptyString :: split sep s'
      else match split sep s' with
           | [] => [String c EmptyString]
           | w :: ws => String c w :: ws
           end
  end.

(** [v.split(sep)] on an arbitrary value: only [str] has the method. *)
Definition split_of (v : pyval) (sep : ascii) : outcome (list string) :=
  match v with
  | PyStr s => Returned (split sep s)
  | _ => Raised AttributeError
  end.

(** [a, b, c, d = parts] *)
Definition unpack4 (parts : list string) : outcome (string * string * string * string) :=
  match parts with
  | [a; b; c; d] => Returned (a, b, c, d)
  | _ => Raised ValueError
  end.

(** [a, b, c = parts] *)
Definition unpack3 (parts : list string) : outcome (string * string * string) :=
  match parts with
  | [a; b; c] => Returned (a, b, c)
  | _ => Raised ValueError
  end.

(** [parts[i]] *)
Definition getitem {A} (l : list A) (i : nat) : outcome A :=
  match l !! i with
  | Some x => Returned x
  | None => Raised IndexError
  end.

(** [for x in xs: body], threading the loop's variables [S] and stopping
    at the first exception. *)
Fixpoint for_each {S A} (body : S -> A -> outcome S) (xs : list A) (s : S)
    : outcome S :=
  match xs with
  | [] => Returned s
  | x :: xs' => s' ← body s x; for_each body xs' s'
  end.

(** [c.isspace()] on code points below 256: tab, line feed, vertical tab,
    form feed, carriage return, the four separators 28-31, space, NEL and
    the no-break space. *)
Definition is_space (c : ascii) : bool :=
  let n := N_of_ascii c in
  ((9 <=? n) && (n <=? 13) || (28 <=? n) && (n <=? 32)
   || (n =? 133) || (n =? 160))%N.

Fixpoint lstrip (s : string) : string :=
  match s with
  | EmptyString => EmptyString
  | String c s' => if is_space c then lstrip s' else s
  end.

Fixpoint rstrip (s : string) : string :=
  match s with
  | EmptyString => EmptyString
  | String c s' =>
      match rstrip s' with
      | EmptyString => if is_space c then EmptyString else String c EmptyString
      | r => String c r
      end
  end.

(** [s.strip()] *)
Definition strip (s : string) : string := rstrip (lstrip s).

(** [s.startswith(c)] for a one-character prefix. *)
Definition startswith (s : string) (c : ascii) : bool :=
  match s with
  | String d _ => Ascii.eqb d c
  | EmptyString => false
  end.

(** Text files: a path holds the lines that iterating over the open file
    yields.  [open(path)] of a missing path raises. *)
Definition open_text (files : gmap string (list string)) (path : string)
    : outcome (list string) :=
  match files !! path with
  | Some lines => Returned lines
  | None => Raised FileNotFoundError
  end.

Definition line_feed : ascii := "010"%char.

Definition carriage_return : ascii := "013"%char.

(** The lines of a text as iterating over its file yields them, [cur]
    being the part of the current line already read: a line ends at a
    line feed, at a carriage return or at the two in a row, and is yielded
    with a line feed at its end; what follows the last line end is a line
    if it is not empty. *)
Fixpoint lines_after (cur : string) (text : string) : list string :=
  match text with
  | EmptyString =>
      match cur with
      | EmptyString => []
      | _ => [cur]
      end
  | String c rest =>
      if Ascii.eqb c line_feed then
        (cur +:+ String line_feed EmptyString) :: lines_after EmptyString rest
      else if Ascii.eqb c carriage_return then
        match rest with
        | String d rest' =>
            if Ascii.eqb d line_feed
            then (cur +:+ String line_feed EmptyString) :: lines_after EmptyString rest'
            else (cur +:+ String line_feed EmptyString) :: lines_after EmptyString rest
        | EmptyString => [cur +:+ String line_feed EmptyString]
        end
      else lines_after (cur +:+ String c EmptyString) rest
  end.

(** The file that writing the strings [written] one after the other
    leaves: the lines that reading it back yields. *)
Definition file_lines (written : list string) : list string :=
  lines_after EmptyString (foldr String.append EmptyString written).

(** [sep.join(parts)] for a one-character separator. *)
Fixpoint join (sep : ascii) (parts : list string) : string :=
  match parts with
  | [] => EmptyString
  | [w] => w
  | w :: ws => w +:+ String sep (join sep ws)
  end.

(** [c not in s] *)
Fixpoint free_of (c : ascii) (s : string) : bool :=
  match s with
  | EmptyString => true
  | String d s' => negb (Ascii.eqb d c) && free_of c s'
  end.

End Py.

Export Py.

(** ** The pandas pieces the sources rely on

    A dataframe is its column labels, in order, and its rows, in order;
    every row has one cell per column.  Rows are addressed by position:
    every dataframe of these sources comes from [pd.read_csv],
    [pd.DataFrame(list)] or a [pd.concat] of such, and carries the default
    [RangeIndex], so that label [i] is row [i].  Dataframes are objects:
    a store maps references to their current content. *)

Module Pandas.

Record DataFrame : Type := mk_df {
  columns : list string;
  rows : list (list pyval)
}.

Definition NaN : pyval := PyFloat S754_nan.

(** Every row has one cell per column. *)
Definition well_formed (df : DataFrame) : Prop :=
  Forall (fun row => length row = length (columns df)) (rows df).

(** [pd.isna(v)] on a scalar. *)
Definition isna (v : pyval) : bool :=
  match v with
  | PyNone | PyNA | PyFloat S754_nan => true
  | _ => false
  end.

(** [df.shape[0]] *)
Definition nrows (df : DataFrame) : nat := length (rows df).

(** [df.empty]: some axis has length 0. *)
Definition empty (df : DataFrame) : bool :=
  (length (columns df) =? 0)%nat || (length (rows df) =? 0)%nat.

(** The positions of a label among the column labels. *)
Fixpoint positions (name : string) (cols : list string) (from : nat) : list nat :=
  match cols with
  | [] => []
  | c :: cols' =>
      if String.eqb c name then from :: positions name cols' (S from)
      else positions name cols' (S from)
  end.

(** [row[name]] used as a scalar: a missing label raises [KeyError]; a
    label carried by several columns selects several cells, whose truth
    value is ambiguous ([ValueError]). *)
Definition scalar_at (cols : list string) (row : list pyval) (name : string)
    : outcome pyval :=
  match positions name cols 0 with
  | [] => Raised KeyError
  | [j] => Returned (default NaN (row !! j))
  | _ => Raised ValueError
  end.

(** [df.loc[i, name]] used as a scalar. *)
Definition loc_get (df : DataFrame) (i : nat) (name : string) : outcome pyval :=
  match rows df !! i with
  | None => Raised KeyError
  | Some row => scalar_at (columns df) row name
  end.

(** The cells of a row after writing [v] under the label [name]. *)
Fixpoint write_cells (cols : list string) (row : list pyval) (name : string)
    (v : pyval) : list pyval :=
  match cols, row with
  | c :: cols', x :: row' =>
      (if String.eqb c name then v else x) :: write_cells cols' row' name v
  | _, _ => row
  end.

(** [df.loc[i, name] = v] for a row [i] of the frame: an existing label
    has its cell of row [i] overwritten; a new label becomes a last
    column, NaN in the other rows. *)
Definition loc_set (df : DataFrame) (i : nat) (name : string) (v : pyval)
    : DataFrame :=
  match positions name (columns df) 0 with
  | [] =>
      mk_df (columns df ++ [name])
            (imap (fun j row => row ++ [if (j =? i)%nat then v else NaN]) (rows df))
  | _ :: _ =>
      mk_df (columns df)
            (alter (fun row => write_cells (columns df) row name v) i (rows df))
  end.

(** [pd.DataFrame(values)] of a list of scalars: one column, labelled 0;
    no column at all for the empty list. *)
Definition of_list (values : list pyval) : DataFrame :=
  match values with
  | [] => mk_df [] []
  | _ :: _ => mk_df ["0"] (map (fun v => [v]) values)
  end.

(** [df.columns = names] *)
Definition set_columns (df : DataFrame) (names : list string) : outcome DataFrame :=
  if (length names =? length (columns df))%nat
  then Returned (mk_df names (rows df))
  else Raised ValueError.

(** Row [i] of a frame; a row of NaN beyond its last row. *)
Definition row_or_nan (df : DataFrame) (i : nat) : list pyval :=
  default (replicate (length (columns df)) NaN) (rows df !! i).

(** [pd.concat([a, b], axis=1)]: the columns of [a], then those of [b];
    row [i] of the one beside row [i] of the other, up to the longer. *)
Definition concat_columns (a b : DataFrame) : DataFrame :=
  mk_df (columns a ++ columns b)
        (map (fun i => row_or_nan a i ++ row_or_nan b i)
             (seq 0 (Nat.max (nrows a) (nrows b)))).

(** The cells of a row under the labels [target], NaN where the row has
    no such label. *)
Definition reindex_row (cols : list string) (row : list pyval)
    (target : list string) : list pyval :=
  map (fun name => match positions name cols 0 with
                   | j :: _ => default NaN (row !! j)
                   | [] => NaN
                   end) target.

(** The labels of [b] that [a] lacks, in [b]'s order. *)
Definition new_labels (a b : list string) : list string :=
  List.filter (fun name => negb (existsb (String.eqb name) a)) b.

(** [pd.concat([a, b], ignore_index=True)]: the rows of [a], then those
    of [b], under the labels of [a] followed by the new ones of [b].
    Differing label lists with a repeated label cannot be aligned. *)
Definition concat_rows (a b : DataFrame) : outcome DataFrame :=
  if decide (columns a = columns b) then
    Returned (mk_df (columns a) (rows a ++ rows b))
  else if decide (NoDup (columns a) /\ NoDup (columns b)) then
    let target := columns a ++ new_labels (columns a) (columns b) in
    Returned (mk_df target
                (map (fun row => reindex_row (columns a) row target) (rows a) ++
                 map (fun row => reindex_row (columns b) row target) (rows b)))
  else Raised InvalidIndexError.

(** A new object holding [df], in a store of objects. *)
Definition alloc (h : gmap nat DataFrame) (df : DataFrame) : nat * gmap nat DataFrame :=
  let r := fresh (dom h) in (r, <[r := df]> h).

End Pandas.

(** ** tools/cadd.py *)

Module Cadd.

(** The four fields of a variant, as strings. *)
Definition variant : Type := string * string * string * string.

Definition unknown_variant : variant := (".", ".", ".", ".").

(** [parse_variant(variant_str)] *)
Definition parse_variant (variant_str : pyval) : outcome variant :=
  try_except
    (parts ← split_of variant_str "-";
     '(chrom, pos, ref, alt) ← unpack4 parts;
     Returned (chrom, pos, ref, alt))
    (fun e =>
       match e with
       | ValueError =>
           Some (parts ← split_of variant_str "-";
                 '(chrom, pos, _) ← unpack3 parts;
                 Returned (chrom, pos, ".", "."))
       | AttributeError => Some (Returned unknown_variant)
       | _ => None
       end).

(** The marker [parse_tsv] stores for a variant without a score. *)
Definition unavailable : string := "CADD score unavailable".

Definition tab : ascii := "009"%char.

(** The columns of a line: stripped, then split at tabs. *)
Definition columns_of (line : string) : list string := split tab (strip line).

(** [f"{a}:{b}:{c}:{d}"] *)
Definition key_of (v : variant) : string :=
  let '(a, b, c, d) := v in a +:+ ":" +:+ b +:+ ":" +:+ c +:+ ":" +:+ d.

(** Body of the first loop of [parse_tsv]: one line of the result file. *)
Definition tsv_step (tsv_data : gmap string string) (line : string)
    : outcome (gmap string string) :=
  if startswith line "#" then Returned tsv_data
  else
    let columns := columns_of line in
    c0 ← getitem columns 0;
    c1 ← getitem columns 1;
    c2 ← getitem columns 2;
    c3 ← getitem columns 3;
    let key := key_of (c0, c1, c2, c3) in
    c5 ← getitem columns 5;
    Returned (<[key := c5]> tsv_data).

(** Body of the second loop of [parse_tsv]: one line of the submitted file. *)
Definition vcf_step (tsv_data : gmap string string) (phred_scores : list string)
    (line : string) : outcome (list string) :=
  let columns := columns_of line in
  if (length columns <? 5)%nat then Returned (phred_scores ++ [unavailable])
  else
    c0 ← getitem columns 0;
    c1 ← getitem columns 1;
    c3 ← getitem columns 3;
    c4 ← getitem columns 4;
    let key := key_of (c0, c1, c3, c4) in
    Returned (phred_scores ++ [default unavailable (tsv_data !! key)]).

(** [parse_tsv(tsv_file_path, vcf_file_path)] *)
Definition parse_tsv (files : gmap string (list string))
    (tsv_file_path vcf_file_path : string) : outcome (list string) :=
  try_except
    (tsv ← open_text files tsv_file_path;
     tsv_data ← for_each tsv_step tsv ∅;
     vcf ← open_text files vcf_file_path;
     for_each (vcf_step tsv_data) vcf [])
    (fun _ => Some (Raised ValueError)).

(** The record a line of the result file contributes: the four key columns
    and the score column; comment lines and short lines give none. *)
Definition tsv_record (line : string) : option (variant * string) :=
  if startswith line "#" then None
  else match columns_of line with
       | c0 :: c1 :: c2 :: c3 :: _ :: c5 :: _ => Some ((c0, c1, c2, c3), c5)
       | _ => None
       end.

(** The variant a line of the submitted file stands for. *)
Definition vcf_variant (line : string) : option variant :=
  match columns_of line with
  | c0 :: c1 :: _ :: c3 :: c4 :: _ => Some (c0, c1, c3, c4)
  | _ => None
  end.

(** A line of the result file that [parse_tsv] can read. *)
Definition tsv_line_ok (line : string) : bool :=
  startswith line "#" || (6 <=? length (columns_of line))%nat.

(** *** Files and paths *)

(** The text up to the last slash, with it. *)
Fixpoint upto_last_slash (s : string) : string :=
  match s with
  | EmptyString => EmptyString
  | String c s' =>
      match upto_last_slash s' with
      | EmptyString => if Ascii.eqb c "/" then String c EmptyString else EmptyString
      | h => String c h
      end
  end.

(** [s.rstrip('/')] *)
Fixpoint rstrip_slash (s : string) : string :=
  match s with
  | EmptyString => EmptyString
  | String c s' =>
      match rstrip_slash s' with
      | EmptyString => if Ascii.eqb c "/" then EmptyString else String c EmptyString
      | r => String c r
      end
  end.

(** [os.path.dirname(path)]: the text before the last slash, without its
    trailing slashes unless it is made of slashes only. *)
Definition dirname (path : string) : string :=
  let head := upto_last_slash path in
  match rstrip_slash head with
  | EmptyString => head
  | stripped => stripped
  end.

(** [os.path.join(a, b)] *)
Definition path_join (a b : string) : string :=
  if startswith b "/" then b
  else match a with
       | EmptyString => b
       | _ => if String.eqb (upto_last_slash a) a then a +:+ b
              else a +:+ "/" +:+ b
       end.

(** [s[:-3]] *)
Definition drop_last3 (s : string) : string :=
  String.substring 0 (String.length s - 3) s.

(** [gzip_file(file_path)]: the compressed file holds the same lines. *)
Definition gzip_file (file_path : string) (files : gmap string (list string))
    : outcome string * gmap string (list string) :=
  match files !! file_path with
  | None => (Raised FileNotFoundError, files)
  | Some lines =>
      let gzipped_file_path := file_path +:+ ".gz" in
      (Returned gzipped_file_path, <[gzipped_file_path := lines]> files)
  end.

(** [gunzip_file(file_path)] *)
Definition gunzip_file (file_path : string) (files : gmap string (list string))
    : outcome unit * gmap string (list string) :=
  match files !! file_path with
  | None => (Raised FileNotFoundError, files)
  | Some lines => (Returned tt, <[drop_last3 file_path := lines]> files)
  end.

(** [os.remove(path)] *)
Definition remove (path : string) (files : gmap string (list string))
    : outcome unit * gmap string (list string) :=
  match files !! path with
  | None => (Raised FileNotFoundError, files)
  | Some _ => (Returned tt, delete path files)
  end.

(** *** [write_vcf] *)

Definition variant_columns : list string :=
  ["hg38_gnomad_format"; "variant_id_gnomad"; "variant_id"; "hg38_ID_clinvar"].

(** The inner loop of [write_vcf]: the first of the columns [names] that
    the row has with a value that is neither NA nor ["?"]; [None] when
    there is none. *)
Fixpoint variant_value_of (cols : list string) (row : list pyval)
    (names : list string) : outcome pyval :=
  match names with
  | [] => Returned PyNone
  | col :: rest =>
      if existsb (String.eqb col) cols then
        v ← Pandas.scalar_at cols row col;
        if negb (Pandas.isna v) && negb (bool_decide (v = PyStr "?"))
        then Returned v
        else variant_value_of cols row rest
      else variant_value_of cols row rest
  end.

(** The line written for a row. *)
Definition vcf_line_of (cols : list string) (row : list pyval) : outcome string :=
  variant_value ← variant_value_of cols row variant_columns;
  '(chrom, pos, ref, alt) ← parse_variant variant_value;
  Returned (chrom +:+ String tab (pos +:+ String tab ("." +:+ String tab
              (ref +:+ String tab (alt +:+ String "010"%char EmptyString))))).

(** [for _, row in dataframe.iterrows()]: the strings written, one per
    row, and the exception that ended the loop, if any. *)
Fixpoint vcf_lines_of (cols : list string) (rows : list (list pyval))
    : option exn * list string :=
  match rows with
  | [] => (None, [])
  | row :: rest =>
      match vcf_line_of cols row with
      | Raised e => (Some e, [])
      | Returned line =>
          let '(e, lines) := vcf_lines_of cols rest in (e, line :: lines)
      end
  end.

(** [write_vcf(dataframe, output_filepath)]: the file holds what was
    written when the [with] block is left; a line break inside a written
    string breaks the line in the file. *)
Definition write_vcf (dataframe : Pandas.DataFrame) (output_filepath : string)
    (files : gmap string (list string))
    : outcome string * gmap string (list string) :=
  let '(e, written) := vcf_lines_of (Pandas.columns dataframe) (Pandas.rows dataframe) in
  (match e with
   | None => Returned output_filepath
   | Some e => Raised e
   end, <[output_filepath := file_lines written]> files).

(** A text without a line break. *)
Definition one_line (s : string) : bool :=
  free_of line_feed s && free_of carriage_return s.

(** A row whose identifier, if it parses, has no line break in its
    fields: the string [write_vcf] writes for it is one line of the file. *)
Definition row_one_line (cols : list string) (row : list pyval) : bool :=
  match (v ← variant_value_of cols row variant_columns; parse_variant v) with
  | Returned (chrom, pos, ref, alt) =>
      one_line chrom && one_line pos && one_line ref && one_line alt
  | Raised _ => true
  end.

(** The dictionary after one more line of the result file. *)
Definition tsv_insert (tsv_data : gmap string string) (line : string)
    : gmap string string :=
  match tsv_record line with
  | Some (v, score) => <[key_of v := score]> tsv_data
  | None => tsv_data
  end.

(** The cell [parse_tsv] appends for one line of the submitted file. *)
Definition cell_for (tsv_data : gmap string string) (line : string) : string :=
  match vcf_variant line with
  | Some v => default unavailable (tsv_data !! key_of v)
  | None => unavailable
  end.

Definition colon_free (v : variant) : bool :=
  let '(a, b, c, d) := v in
  free_of ":" a && free_of ":" b && free_of ":" c.

(** *** [extract_job_id] *)

Definition is_lower_hex (c : ascii) : bool :=
  let n := N_of_ascii c in
  ((48 <=? n) && (n <=? 57) || (97 <=? n) && (n <=? 102))%N.

(** The first [n] characters of [s], if they are [n] hexadecimal digits. *)
Fixpoint take_hex (n : nat) (s : string) : option string :=
  match n with
  | O => Some EmptyString
  | S n' =>
      match s with
      | String c s' =>
          if is_lower_hex c then String c <$> take_hex n' s' else None
      | EmptyString => None
      end
  end.

(** [re.search(r'_([a-f0-9]{32})', url)] and [match.group(0)]: the
    leftmost underscore followed by 32 hexadecimal digits, with them;
    [None] without a match. *)
Fixpoint extract_job_id (url : string) : option string :=
  match url with
  | EmptyString => None
  | String c rest =>
      if Ascii.eqb c "_" then
        match take_hex 32 rest with
        | Some digits => Some (String c digits)
        | None => extract_job_id rest
        end
      else extract_job_id rest
  end.

(** *** [download_cadd_scores] *)

(** What the remote site and the browser do during one session, as far as
    the function observes it: each interaction returns or raises. *)
Record session : Type := mk_session {
  (** [driver.get("https://cadd.bihealth.org/score")] *)
  score_page : outcome unit;
  (** the input named ["file"], awaited 20 s, and [send_keys] *)
  file_input : outcome unit;
  (** the submit button, found and clicked *)
  submit : outcome unit;
  (** the address containing ["/upload"], awaited 20 s *)
  upload_page : outcome unit;
  (** the link to ["/static/finished/"], awaited 10 s: its [href] *)
  finished_link : outcome string;
  (** the click on that link *)
  finished_click : outcome unit;
  (** the link to ["/check_avail/"], awaited 30 s: its [href] *)
  check_avail_link : outcome string;
  (** [driver.get(job_url)] *)
  job_page : outcome unit;
  (** round [k] of the polling loop: [driver.refresh()] *)
  refresh : nat -> outcome unit;
  (** round [k]: the finished link, awaited 10 s *)
  poll_link : nat -> outcome string;
  (** round [k]: the click on it *)
  poll_click : nat -> outcome unit;
  (** the lines of the result file the finished link serves *)
  result_lines : list string
}.

(** A local variable that may not have been assigned yet. *)
Inductive binding (A : Type) : Type :=
| Unbound
| Bound (a : A).
Arguments Unbound {A}.
Arguments Bound {A} a.

(** A successful click on the finished link: the browser saves the
    served file, named after the job, into its download directory. *)
Definition save_download (web : session) (download_dir : string)
    (job_id : option string) (files : gmap string (list string))
    : gmap string (list string) :=
  match job_id with
  | Some id =>
      <[path_join download_dir ("GRCh38-v1.7" +:+ id +:+ ".tsv.gz") :=
          result_lines web]> files
  | None => files
  end.

(** A path by which the browser saves, or the caller unpacks, a result
    file in [download_dir]. *)
Definition download_name (download_dir path : string) : Prop :=
  exists x, path = path_join download_dir ("GRCh38-v1.7" +:+ x).

(** [while True]: round [k] of at most [fuel] rounds.  The result is
    [None] when the rounds are used up with the loop still running;
    otherwise the exception that left the loop, if any, the value of
    [job_id] and the files. *)
Fixpoint poll_rounds (fuel : nat) (web : session) (download_dir : string)
    (k : nat) (job_id : binding (option string))
    (files : gmap string (list string))
    : option (option exn * binding (option string) * gmap string (list string)) :=
  match fuel with
  | O => None
  | S fuel' =>
      match refresh web k with
      | Raised e => Some (Some e, job_id, files)
      | Returned _ =>
          match poll_link web k with
          | Raised _ => poll_rounds fuel' web download_dir (S k) job_id files
          | Returned href =>
              let job_id' := Bound (extract_job_id href) in
              match poll_click web k with
              | Raised _ => poll_rounds fuel' web download_dir (S k) job_id' files
              | Returned _ =>
                  Some (None, job_id',
                        save_download web download_dir (extract_job_id href) files)
              end
          end
      end
  end.

(** The [except:] branch of the first wait: the status link, the job
    page, the polling loop. *)
Definition await_job (fuel : nat) (web : session) (download_dir : string)
    (job_id : binding (option string)) (files : gmap string (list string))
    : option (option exn * binding (option string) * gmap string (list string)) :=
  match check_avail_link web with
  | Raised TimeoutException => Some (Some TimeoutException, job_id, files)
  | Raised e => Some (Some e, job_id, files)
  | Returned job_url =>
      let job_id' := Bound (extract_job_id job_url) in
      match job_page web with
      | Raised e => Some (Some e, job_id', files)
      | Returned _ => poll_rounds fuel web download_dir 0 job_id' files
      end
  end.

(** The body of the outer [try]. *)
Definition submit_and_wait (fuel : nat) (web : session) (download_dir : string)
    (files : gmap string (list string))
    : option (option exn * binding (option string) * gmap string (list string)) :=
  match (_ ← score_page web; _ ← file_input web; _ ← submit web; upload_page web) with
  | Raised e => Some (Some e, Unbound, files)
  | Returned _ =>
      match finished_link web with
      | Raised _ => await_job fuel web download_dir Unbound files
      | Returned href =>
          let job_id := Bound (extract_job_id href) in
          match finished_click web with
          | Raised _ => await_job fuel web download_dir job_id files
          | Returned _ =>
              Some (None, job_id,
                    save_download web download_dir (extract_job_id href) files)
          end
      end
  end.

(** [download_cadd_scores(driver, vcf_file_path)] for a driver that saves
    into [download_dir]; the file at [vcf_file_path] is what [file_input]
    uploads.  The [finally] clause quits the driver and
    executes [return job_id]: the return discards an exception on its way
    out of the [try], and reading an unassigned [job_id] raises
    [UnboundLocalError].  [None]: still polling after [fuel] rounds. *)
Definition download_cadd_scores (fuel : nat) (web : session)
    (download_dir : string) (vcf_file_path : string)
    (files : gmap string (list string))
    : option (outcome (option string) * gmap string (list string)) :=
  match submit_and_wait fuel web download_dir files with
  | None => None
  | Some (_, Bound job_id, files') => Some (Returned job_id, files')
  | Some (_, Unbound, files') => Some (Raised UnboundLocalError, files')
  end.

(** [f"{job_id}"] *)
Definition str_of_job_id (job_id : option string) : string :=
  match job_id with
  | Some id => id
  | None => "None"
  end.

(** [if not os.path.exists(download_dir): os.makedirs(download_dir)]:
    the empty path, the directory of a file named without one, does not
    exist and cannot be made; any other directory is there or is made. *)
Definition makedirs (download_dir : string) : outcome unit :=
  match download_dir with
  | EmptyString => Raised FileNotFoundError
  | String _ _ => Returned tt
  end.

(** [get_cadd_scores_file(file_path)] *)
Definition get_cadd_scores_file (fuel : nat) (web : session) (file_path : string)
    (files : gmap string (list string))
    : option (outcome string * gmap string (list string)) :=
  let download_dir := dirname file_path in
  match makedirs download_dir with
  | Raised e => Some (Raised e, files)
  | Returned _ =>
      match download_cadd_scores fuel web download_dir file_path files with
      | None => None
      | Some (Raised e, files1) => Some (Raised e, files1)
      | Some (Returned job_id, files1) =>
          let downloaded_file :=
            path_join download_dir
              ("GRCh38-v1.7" +:+ str_of_job_id job_id +:+ ".tsv.gz") in
          match gunzip_file downloaded_file files1 with
          | (Raised e, files2) => Some (Raised e, files2)
          | (Returned _, files2) =>
              match remove downloaded_file files2 with
              | (Raised e, files3) => Some (Raised e, files3)
              | (Returned _, files3) =>
                  Some (Returned (path_join download_dir
                                    ("GRCh38-v1.7" +:+ str_of_job_id job_id +:+ ".tsv")),
                        files3)
              end
          end
      end
  end.

(** *** [cadd_pipeline] *)

(** The world the pipeline runs in: the dataframe objects and the files. *)
Record world : Type := mk_world {
  frames : gmap nat Pandas.DataFrame;
  files : gmap string (list string)
}.

(** [cadd_pipeline(dataframe, vcf_file_path)] on a reference to the input
    object (a reference always denotes an object: the first case does not
    occur in a run).  [None]: still polling after [fuel] rounds. *)
Definition cadd_pipeline (fuel : nat) (web : session) (dataframe : nat)
    (vcf_file_path : string) (w : world) : option (outcome nat * world) :=
  match frames w !! dataframe with
  | None => Some (Raised RuntimeError, w)
  | Some df =>
      (* data_copy = dataframe.copy() *)
      let '(data_copy, h1) := Pandas.alloc (frames w) df in
      match write_vcf df vcf_file_path (files w) with
      | (Raised e, f1) => Some (Raised e, mk_world h1 f1)
      | (Returned input_vcf_file, f1) =>
          match gzip_file input_vcf_file f1 with
          | (Raised e, f2) => Some (Raised e, mk_world h1 f2)
          | (Returned gzipped_file_path, f2) =>
              match get_cadd_scores_file fuel web gzipped_file_path f2 with
              | None => None
              | Some (Raised e, f3) => Some (Raised e, mk_world h1 f3)
              | Some (Returned cadd_tsv_file, f3) =>
                  match remove gzipped_file_path f3 with
                  | (Raised e, f4) => Some (Raised e, mk_world h1 f4)
                  | (Returned _, f4) =>
                      match parse_tsv f4 cadd_tsv_file input_vcf_file with
                      | Raised e => Some (Raised e, mk_world h1 f4)
                      | Returned scores =>
                          let scores_df := Pandas.of_list (map PyStr scores) in
                          match Pandas.set_columns scores_df ["PHRED_cadd"] with
                          | Raised e => Some (Raised e, mk_world h1 f4)
                          | Returned scores_df' =>
                              let '(result, h2) :=
                                Pandas.alloc h1 (Pandas.concat_columns df scores_df') in
                              Some (Returned result, mk_world h2 f4)
                          end
                      end
                  end
              end
          end
      end
  end.

End Cadd.

(** ** The SQLite table behind the score store

    The [revel] table of the three sources has the columns
    [chr TEXT, grch38_pos INTEGER, ref TEXT, alt TEXT, REVEL REAL] and the
    primary key [(chr, grch38_pos, ref, alt)].  A table is the list of its
    rows in insertion order; a TEXT column holds a text or NULL. *)

Module Sqlite.

Record revel_row : Type := mk_row {
  chr : option string;
  grch38_pos : Z;
  ref : option string;
  alt : option string;
  REVEL : spec_float
}.

Abbreviation table := (list revel_row).

(** A database file: its [revel] table once [CREATE TABLE] has run. *)
Abbreviation database := (option (list revel_row)).

(** [=] on a TEXT column: NULL equals nothing, not even NULL. *)
Definition text_eq (a b : option string) : bool :=
  match a, b with
  | Some x, Some y => String.eqb x y
  | _, _ => false
  end.

(** Two rows that the primary key forbids side by side. *)
Definition pk_conflict (new old : revel_row) : bool :=
  text_eq (chr new) (chr old) && (grch38_pos new =? grch38_pos old)%Z
  && text_eq (ref new) (ref old) && text_eq (alt new) (alt old).

(** [INSERT OR IGNORE INTO revel VALUES (?,?,?,?,?)] for one row. *)
Definition insert_or_ignore (tbl : table) (r : revel_row) : table :=
  if existsb (pk_conflict r) tbl then tbl else tbl ++ [r].

(** The parameter tuple Python hands over for one row. *)
Definition py_tuple : Type :=
  option string * Z * option string * option string * spec_float.

(** Binding a Python [int]: it must fit SQLite's 64-bit INTEGER. *)
Definition fits_int64 (z : Z) : bool :=
  ((- 2 ^ 63 <=? z) && (z <? 2 ^ 63))%Z.

Definition bind_row (t : py_tuple) : outcome revel_row :=
  let '(c, p, r, a, s) := t in
  if fits_int64 p then Returned (mk_row c p r a s) else Raised OverflowError.

(** [conn.executemany('INSERT OR IGNORE ...', chunk)]: the rows go in one
    after the other; a tuple that cannot be bound stops the statement, with
    the rows before it already inserted in the open transaction. *)
Fixpoint executemany (tbl : table) (chunk : list py_tuple) : table * option exn :=
  match chunk with
  | [] => (tbl, None)
  | t :: rest =>
      match bind_row t with
      | Returned r => executemany (insert_or_ignore tbl r) rest
      | Raised e => (tbl, Some e)
      end
  end.

Definition row_of_tuple (t : py_tuple) : revel_row :=
  let '(c, p, r, a, s) := t in mk_row c p r a s.

(** The table after inserting the rows of [ts], none of them refused. *)
Definition apply_rows (tbl : table) (ts : list py_tuple) : table :=
  foldl insert_or_ignore tbl (map row_of_tuple ts).

(** The row carries the key [(c, p, r, a)]. *)
Definition key_matches (c : string) (p : Z) (r a : string) (row : revel_row) : bool :=
  text_eq (chr row) (Some c) && (grch38_pos row =? p)%Z
  && text_eq (ref row) (Some r) && text_eq (alt row) (Some a).

(** No two rows of the table conflict on the primary key. *)
Definition pk_unique (tbl : table) : Prop :=
  forall (i j : nat) (r1 r2 : revel_row),
    tbl !! i = Some r1 -> tbl !! j = Some r2 ->
    pk_conflict r1 r2 = true -> i = j.

(** What inserting with [OR IGNORE] keeps between a table and a later
    state of it: the table only grows at its end, stays free of key
    conflicts, and a key that has its record keeps exactly that record. *)
Definition extends (tbl tbl' : table) : Prop :=
  tbl `prefix_of` tbl' /\
  (pk_unique tbl -> pk_unique tbl') /\
  (forall c p r a row0,
     filter (fun x => key_matches c p r a x = true) tbl = [row0] ->
     filter (fun x => key_matches c p r a x = true) tbl' = [row0]).

(** A bound query parameter. *)
Inductive sqlparam : Type :=
| PNull
| PInt (z : Z)
| PText (s : string).

Definition text_of_int (z : Z) : string := NilZero.string_of_int (Z.to_int z).

(** [column = ?] on a TEXT column: an integer parameter is compared as its
    decimal text. *)
Definition text_column_eq (col : option string) (p : sqlparam) : bool :=
  match p with
  | PNull => false
  | PInt z => text_eq col (Some (text_of_int z))
  | PText s => text_eq col (Some s)
  end.

Section Affinity.

(** The integer that NUMERIC affinity reads a text as, when comparing it
    with an INTEGER column; [None] for a text that is no integer. *)
Variable sql_numeric : string -> option Z.

(** [column = ?] on the INTEGER column. *)
Definition int_column_eq (col : Z) (p : sqlparam) : bool :=
  match p with
  | PNull => false
  | PInt z => (col =? z)%Z
  | PText s => match sql_numeric s with
               | Some z => (col =? z)%Z
               | None => false
               end
  end.

(** [WHERE chr = ? AND grch38_pos = ? AND ref = ? AND alt = ?] *)
Definition where_key (chromosome position reference alternate : sqlparam)
    (r : revel_row) : bool :=
  text_column_eq (chr r) chromosome && int_column_eq (grch38_pos r) position
  && text_column_eq (ref r) reference && text_column_eq (alt r) alternate.

(** [cursor.execute(query, params); cursor.fetchone()] *)
Definition fetchone (chromosome position reference alternate : sqlparam)
    (tbl : table) : option revel_row :=
  find (where_key chromosome position reference alternate) tbl.

End Affinity.

End Sqlite.

(** ** scripts/revel.py and the loader of tools/revel/revel.py *)

Module Revel.
Import Sqlite.

(** A row as [csv.DictReader] yields it: a [dict] from the header's names
    to the fields, [None] for a field the line is too short to have. *)
Abbreviation csv_row := (gmap string (option string)).

Inductive level : Type := DEBUG | INFO | ERROR.

Definition chunk_size : N := 100000.

(** [row[name]] *)
Definition dict_get (row : csv_row) (name : string) : outcome (option string) :=
  match row !! name with
  | Some v => Returned v
  | None => Raised KeyError
  end.

(** [v > s] for a field [v] and a [str]: the order of [str] is the
    lexicographic one on code points; [None] does not compare. *)
Definition field_gt (v : option string) (s : string) : outcome bool :=
  match v with
  | Some x => Returned (String.ltb s x)
  | None => Raised TypeError
  end.

(** [v == s] for a field [v] and a [str]. *)
Definition field_is (v : option string) (s : string) : bool :=
  match v with
  | Some x => String.eqb x s
  | None => false
  end.

Section Load.

(** [int(s)] and [float(s)] on a [str]; [None] stands for [ValueError]. *)
Variable py_int : string -> option Z.
Variable py_float : string -> option spec_float.

Definition int_of (v : option string) : outcome Z :=
  match v with
  | None => Raised TypeError
  | Some s => match py_int s with
              | Some z => Returned z
              | None => Raised ValueError
              end
  end.

Definition float_of (v : option string) : outcome spec_float :=
  match v with
  | None => Raised TypeError
  | Some s => match py_float s with
              | Some x => Returned x
              | None => Raised ValueError
              end
  end.

(** The tuple both loaders build from a row:
    [(row['chr'], int(row['grch38_pos']), row['ref'], row['alt'],
      float(row['REVEL']))]. *)
Definition make_tuple (row : csv_row) : outcome py_tuple :=
  c ← dict_get row "chr";
  p ← dict_get row "grch38_pos";
  z ← int_of p;
  r ← dict_get row "ref";
  a ← dict_get row "alt";
  s ← dict_get row "REVEL";
  x ← float_of s;
  Returned (c, z, r, a, x).

(** *** [RevelTable.init_table] *)

(** The loop's variables: the table as committed so far, the pending
    chunk, and what went to the logger. *)
Record load_state : Type := mk_load {
  conn : table;
  chunk : list py_tuple;
  log : list (level * string)
}.

(** [if chunk: BEGIN TRANSACTION; executemany(...); commit(); chunk = []].
    An exception of [executemany] leaves the [with] block of the
    connection, which rolls the transaction back. *)
Definition commit_chunk (st : load_state) : outcome load_state :=
  match chunk st with
  | [] => Returned st
  | _ :: _ =>
      match executemany (conn st) (chunk st) with
      | (tbl, None) => Returned (mk_load tbl [] (log st))
      | (_, Some e) => Raised e
      end
  end.

(** What the loop does with a row (lines 60 to 64). *)
Inductive action : Type := Stop | Skip | Take.

Definition classify (row : csv_row) : outcome action :=
  c ← dict_get row "chr";
  past ← field_gt c "6";
  if (past : bool) then Returned Stop
  else if negb (field_is c "6") then Returned Skip
  else
    p ← dict_get row "grch38_pos";
    if field_is p "." then Returned Skip else Returned Take.

(** [try: chunk.append((...)) except Exception as e: logger.error(...)] *)
Definition append_row (row : csv_row) (st : load_state) : load_state :=
  match make_tuple row with
  | Returned t => mk_load (conn st) (chunk st ++ [t]) (log st)
  | Raised _ =>
      mk_load (conn st) (chunk st) (log st ++ [(ERROR, "Error in processing row")])
  end.

(** [for idx, row in enumerate(reader)]: the exception that ends the loop,
    if any, and the variables at that point. *)
Fixpoint load_rows (rows : list csv_row) (idx : N) (st : load_state)
    : option exn * load_state :=
  match rows with
  | [] => (None, st)
  | row :: rest =>
      match (if (idx mod chunk_size =? 0)%N then commit_chunk st else Returned st) with
      | Raised e => (Some e, st)
      | Returned st1 =>
          match classify row with
          | Raised e => (Some e, st1)
          | Returned Stop => (None, st1)
          | Returned Skip => load_rows rest (idx + 1)%N st1
          | Returned Take => load_rows rest (idx + 1)%N (append_row row st1)
          end
      end
  end.

(** The tuples the loop appends, in order: those of the rows it takes
    before the first row past the bound. *)
Fixpoint taken (rows : list csv_row) : list py_tuple :=
  match rows with
  | [] => []
  | row :: rest =>
      match classify row with
      | Returned Take =>
          match make_tuple row with
          | Returned t => t :: taken rest
          | Raised _ => taken rest
          end
      | Returned Skip => taken rest
      | Returned Stop => []
      | Raised _ => []
      end
  end.

(** A tuple that some row of [rows] taken by the loop yields. *)
Definition contributes (rows : list csv_row) (t : py_tuple) : Prop :=
  exists row, row ∈ rows /\ classify row = Returned Take /\
              make_tuple row = Returned t.

(** The row is not past the bound. *)
Definition within_bound (row : csv_row) : Prop := classify row <> Returned Stop.

(** What is logged before the loop and after it. *)
Definition start_log : list (level * string) :=
  [(DEBUG, "Initializing revel table...");
   (DEBUG, "Beginning revel file processing...")].

Definition end_log : list (level * string) :=
  [(DEBUG, "Creating revel table indexes...");
   (INFO, "Revel table initialized.")].

(** [RevelTable.init_table(file_path, db_path)], on the rows of the file
    at [file_path] and the database files [fs]: the outcome, the database
    files afterwards and the log. *)
Definition init_table (rows : list csv_row) (db_path : string)
    (fs : gmap string database)
    : outcome unit * gmap string database * list (level * string) :=
  match fs !! db_path with
  | Some _ =>
      (Raised FileExistsError, fs, [(ERROR, "Sqlite database already exists")])
  | None =>
      let st0 := mk_load [] [] start_log in
      match load_rows rows 0%N st0 with
      | (Some e, st) => (Raised e, <[db_path := Some (conn st)]> fs, log st)
      | (None, st) =>
          match commit_chunk st with
          | Raised e => (Raised e, <[db_path := Some (conn st)]> fs, log st)
          | Returned st' =>
              (Returned tt, <[db_path := Some (conn st')]> fs, log st' ++ end_log)
          end
      end
  end.

(** *** [revel_initiator.prepare_revel_database] *)

(** One pass of the [for] body on a row: a ["."] position is skipped; the
    tuple is appended and the whole chunk so far is inserted again; any
    exception is printed and swallowed, with what [executemany] inserted
    before it left in the open transaction. *)
Definition convert_row (row : csv_row) (chunk : list py_tuple) (work : table)
    : list py_tuple * table :=
  match dict_get row "grch38_pos" with
  | Raised _ => (chunk, work)
  | Returned p =>
      if field_is p "." then (chunk, work)
      else match make_tuple row with
           | Raised _ => (chunk, work)
           | Returned t =>
               let chunk' := chunk ++ [t] in
               (chunk', fst (executemany work chunk'))
           end
  end.

(** [for _ in range(chunk_size)]: [left] counts the passes still to make;
    an exhausted reader ([StopIteration]) leaves the [for]. *)
Fixpoint convert_chunk (reader : list csv_row) (left : N)
    (chunk : list py_tuple) (work : table) : list csv_row * table :=
  match reader with
  | [] => ([], work)
  | row :: rest =>
      if (left =? 0)%N then (reader, work)
      else let '(chunk', work') := convert_row row chunk work in
           convert_chunk rest (left - 1)%N chunk' work'
  end.

(** [rounds] passes of the [while True] body: [chunk = []], the [for],
    [conn.commit()].  No statement leaves the [while]. *)
Fixpoint convert_rounds (rounds : nat) (reader : list csv_row) (committed : table)
    : list csv_row * table :=
  match rounds with
  | O => (reader, committed)
  | S n =>
      let '(reader', work) := convert_chunk reader chunk_size [] committed in
      convert_rounds n reader' work
  end.

(** [prepare_revel_database(revel_file)] observed after [rounds] passes of
    its [while] loop: [Some] outcome if it has returned by then, and the
    database files at that point. *)
Definition prepare_revel_database (rounds : nat) (revel_file : string)
    (rows : list csv_row) (fs : gmap string database)
    : option (outcome string) * gmap string database :=
  let db_path := revel_file +:+ ".db" in
  match fs !! db_path with
  | Some _ => (Some (Returned db_path), fs)
  | None =>
      (None, <[db_path := Some (snd (convert_rounds rounds rows []))]> fs)
  end.

(** A row passes a key by: the tuple the converter makes of it, when it
    makes one, can be bound (its position fits 64 bits) and carries another
    key. *)
Definition passes_by (c : string) (p : Z) (r a : string) (row : csv_row) : Prop :=
  row !! "grch38_pos" <> Some (Some ".") ->
  forall t, make_tuple row = Returned t ->
    fits_int64 (grch38_pos (row_of_tuple t)) = true /\
    key_matches c p r a (row_of_tuple t) = false.

(** The same of every tuple of a chunk. *)
Definition pending_ok (c : string) (p : Z) (r a : string) (chunk : list py_tuple) : Prop :=
  Forall (fun t => fits_int64 (grch38_pos (row_of_tuple t)) = true /\
                   key_matches c p r a (row_of_tuple t) = false) chunk.

End Load.

(** *** [get_single_revel_score] *)

Section Lookup.

Variable sql_numeric : string -> option Z.

(** What [row[4]] is in Python: a REAL, or [None] for the NULL that a NaN
    was stored as. *)
Definition real_out (x : spec_float) : pyval :=
  match x with
  | S754_nan => PyNone
  | _ => PyFloat x
  end.

(** [get_single_revel_score(chromosome, grch38_position, ref, alt,
    revel_db_file)].  Connecting creates a missing file; a file without
    the table makes the query raise. *)
Definition get_single_revel_score
    (chromosome grch38_position ref alt : sqlparam) (revel_db_file : string)
    (fs : gmap string database) : outcome pyval * gmap string database :=
  match fs !! revel_db_file with
  | None => (Raised OperationalError, <[revel_db_file := None]> fs)
  | Some None => (Raised OperationalError, fs)
  | Some (Some tbl) =>
      match fetchone sql_numeric chromosome grch38_position ref alt tbl with
      | Some row => (Returned (real_out (REVEL row)), fs)
      | None => (Returned PyNA, fs)
      end
  end.

(** *** [assign_revel_scores] of tools/revel/revel.py

    The function writes into the dataframe it is given and returns that
    same object: it is modelled by the content of the object when the call
    ends, with the exception that ended it, if any.  [printProgressBar] is
    taken to print and return. *)

(** [chromosome, position, ref, alt = v.split('-')] *)
Definition split_variant (v : pyval) : outcome (string * string * string * string) :=
  parts ← split_of v "-"; unpack4 parts.

(** The cell the loop body writes for a row whose identifier is [v]. *)
Definition revel_cell (revel_db_file : string) (fs : gmap string database)
    (v : pyval) : pyval :=
  if Pandas.isna v then PyNA
  else match split_variant v with
       | Returned (chromosome, position, ref, alt) =>
           match fst (get_single_revel_score (PText chromosome) (PText position)
                        (PText ref) (PText alt) revel_db_file fs) with
           | Returned revel_score => revel_score
           | Raised _ => PyNA
           end
       | Raised _ => PyNA
       end.

(** Two states of the database files in which every lookup in
    [revel_db_file] has the same outcome. *)
Definition same_answers (revel_db_file : string) (fs fs' : gmap string database)
    : Prop :=
  forall c p r a,
    fst (get_single_revel_score c p r a revel_db_file fs') =
    fst (get_single_revel_score c p r a revel_db_file fs).

(** One pass of the loop body, for row [i]. *)
Definition assign_row (revel_db_file : string) (i : nat)
    (df : Pandas.DataFrame) (fs : gmap string database)
    (lg : list (level * string))
    : option exn * Pandas.DataFrame * gmap string database * list (level * string) :=
  match Pandas.loc_get df i "hg38_gnomad_format" with
  | Raised e => (Some e, df, fs, lg)
  | Returned v =>
      if Pandas.isna v then (None, Pandas.loc_set df i "REVEL" PyNA, fs, lg)
      else
        match split_variant v with
        | Returned (chromosome, position, ref, alt) =>
            match get_single_revel_score (PText chromosome) (PText position)
                    (PText ref) (PText alt) revel_db_file fs with
            | (Returned revel_score, fs') =>
                (None, Pandas.loc_set df i "REVEL" revel_score, fs', lg)
            | (Raised ValueError, fs') =>
                (None, Pandas.loc_set df i "REVEL" PyNA, fs',
                 lg ++ [(ERROR, "Format error in variant")])
            | (Raised _, fs') =>
                (None, Pandas.loc_set df i "REVEL" PyNA, fs',
                 lg ++ [(ERROR, "Failed to get REVEL score")])
            end
        | Raised ValueError =>
            (None, Pandas.loc_set df i "REVEL" PyNA, fs,
             lg ++ [(ERROR, "Format error in variant")])
        | Raised _ =>
            (None, Pandas.loc_set df i "REVEL" PyNA, fs,
             lg ++ [(ERROR, "Failed to get REVEL score")])
        end
  end.

(** [for i in range(total_rows)] over the indices still to visit. *)
Fixpoint assign_rows (revel_db_file : string) (indices : list nat)
    (df : Pandas.DataFrame) (fs : gmap string database)
    (lg : list (level * string))
    : option exn * Pandas.DataFrame * gmap string database * list (level * string) :=
  match indices with
  | [] => (None, df, fs, lg)
  | i :: rest =>
      match assign_row revel_db_file i df fs lg with
      | (Some e, df', fs', lg') => (Some e, df', fs', lg')
      | (None, df', fs', lg') => assign_rows revel_db_file rest df' fs' lg'
      end
  end.

(** [assign_revel_scores(input_gene_data, revel_db_file)] *)
Definition assign_revel_scores (input_gene_data : Pandas.DataFrame)
    (revel_db_file : string) (fs : gmap string database)
    : option exn * Pandas.DataFrame * gmap string database * list (level * string) :=
  let total_rows := Pandas.nrows input_gene_data in
  match assign_rows revel_db_file (seq 0 total_rows) input_gene_data fs
          [(INFO, "Starting REVEL score assignment")] with
  | (None, df, fs', lg) => (None, df, fs', lg ++ [(INFO, "REVEL score assignment complete")])
  | failed => failed
  end.

End Lookup.

End Revel.

(** ** routes/workspace_apply_route.py *)

Module Route.

(** What the route reads of a request: headers and query arguments, all
    of them strings. *)
Record request : Type := mk_request {
  headers : gmap string string;
  args : gmap string string
}.

(** What goes out through [socketio_emit_to_user_session]. *)
Inductive event : Type :=
| Console (type : string) (message : string)
| WorkspaceUpdate.

(** The server's disk: the CSV files of the workspace, each identified
    with the table [pd.read_csv] makes of it, and the text files of the
    scoring runs. *)
Record disk : Type := mk_disk {
  tables : gmap string Pandas.DataFrame;
  texts : gmap string (list string)
}.

(** The truth value of a [str] in [if override:]. *)
Definition truthy (s : string) : bool :=
  match s with
  | EmptyString => false
  | String _ _ => true
  end.

(** [pd.read_csv(path)] *)
Definition read_csv (path : string) (d : disk) : outcome Pandas.DataFrame :=
  match tables d !! path with
  | Some df => Returned df
  | None => Raised FileNotFoundError
  end.

Section Apply.

(** [WORKSPACE_DIR] of constants.py: a path under the directory the
    server is started in. *)
Variable WORKSPACE_DIR : string.

(** The statements of the [try] block between the first feedback and the
    write of the destination (lines 261 to 283): the exception that left
    them, if any, and the disk.  [None]: the scoring job is still polled
    after [fuel] rounds. *)
Definition apply_and_save (fuel : nat) (web : Cadd.session)
    (destination_path override apply_to cadd_dir : string) (d : disk)
    : option (option exn * disk) :=
  (* existing_data = pd.DataFrame(); if os.path.exists(destination_path): ... *)
  let '(existing_data, d1) :=
    match tables d !! destination_path with
    | Some existing =>
        if truthy override
        then (Pandas.mk_df [] [],
              mk_disk (delete destination_path (tables d)) (texts d))
        else (existing, d)
    | None => (Pandas.mk_df [] [], d)
    end in
  (* try: result_data_cadd = cadd_pipeline(pd.read_csv(apply_to), ...)
     except Exception as e: raise RuntimeError(...) *)
  match read_csv apply_to d1 with
  | Raised _ => Some (Some RuntimeError, d1)
  | Returned source =>
      match Cadd.cadd_pipeline fuel web 0
              (Cadd.path_join cadd_dir "cadd.vcf")
              (Cadd.mk_world (<[0%nat := source]> ∅) (texts d1)) with
      | None => None
      | Some (Raised _, w) =>
          Some (Some RuntimeError, mk_disk (tables d1) (Cadd.files w))
      | Some (Returned result, w) =>
          let d2 := mk_disk (tables d1) (Cadd.files w) in
          let result_data_cadd :=
            default (Pandas.mk_df [] []) (Cadd.frames w !! result) in
          (* if not existing_data.empty:
               result_data_cadd = pd.concat([existing_data, result_data_cadd],
                                            ignore_index=True) *)
          match (if Pandas.empty existing_data then Returned result_data_cadd
                 else Pandas.concat_rows existing_data result_data_cadd) with
          | Raised e => Some (Some e, d2)
          | Returned merged =>
              (* result_data_cadd.to_csv(destination_path, index=False) *)
              Some (None, mk_disk (<[destination_path := merged]> (tables d2))
                                  (texts d2))
          end
      end
  end.

(** [get_workspace_apply_cadd(relative_path)]: the response (body and
    status), the disk and the events emitted. *)
Definition get_workspace_apply_cadd (fuel : nat) (web : Cadd.session)
    (relative_path : string) (req : request) (d : disk)
    : option (string * nat * disk * list event) :=
  match headers req !! "uuid", headers req !! "sid" with
  | Some uuid, Some sid =>
      match args req !! "override", args req !! "applyTo" with
      | Some override, Some applyTo =>
          let destination_path :=
            Cadd.path_join (Cadd.path_join WORKSPACE_DIR uuid) relative_path in
          let apply_to :=
            Cadd.path_join (Cadd.path_join WORKSPACE_DIR uuid) applyTo in
          let cadd_dir :=
            Cadd.path_join (Cadd.path_join WORKSPACE_DIR uuid) "cadd" in
          let started := Console "info" "Applying CADD algorithm" in
          match apply_and_save fuel web destination_path override apply_to
                  cadd_dir d with
          | None => None
          | Some (None, d') =>
              Some ("CADD algorithm was successfully applied", 200%nat, d',
                    [started;
                     Console "succ" "CADD algorithm was successfully applied";
                     WorkspaceUpdate])
          | Some (Some FileNotFoundError, d') =>
              Some ("Requested file not found", 404%nat, d',
                    [started; Console "errr" "FileNotFoundError"])
          | Some (Some _, d') =>
              Some ("An internal error occurred", 500%nat, d',
                    [started; Console "errr" "UnexpectedError"])
          end
      | _, _ =>
          Some ("'override', and 'applyTo' parameters are required", 400%nat, d, [])
      end
  | _, _ => Some ("UUID and SID headers are required", 400%nat, d, [])
  end.

End Apply.

End Route.

(** ** Sample data *)

Module Demo.

Definition line_of (fields : list string) : string :=
  join Cadd.tab fields +:+ String "010"%char EmptyString.

(** A result file: one comment line, one scored variant. *)
Definition tsv_lines : list string :=
  [ "## CADD GRCh38-v1.7";
    line_of ["6"; "100"; "A"; "T"; "0.1"; "9.9"] ].

(** The submitted file: a scored variant, an unscored one, a sentinel row. *)
Definition vcf_lines : list string :=
  [ line_of ["6"; "100"; "."; "A"; "T"];
    line_of ["7"; "300"; "."; "A"; "G"];
    line_of ["."; "."; "."; "."; "."] ].

Definition text_files : gmap string (list string) :=
  <["cadd.tsv" := tsv_lines]> (<["cadd.vcf" := vcf_lines]> ∅).

(** A reading of [int] on plain decimal digits. *)
Definition digit_of (c : ascii) : option Z :=
  let n := N_of_ascii c in
  if ((48 <=? n) && (n <=? 57))%N then Some (Z.of_N (n - 48)) else None.

Fixpoint digits (s : string) (acc : Z) : option Z :=
  match s with
  | EmptyString => Some acc
  | String c s' =>
      match digit_of c with
      | Some d => digits s' (10 * acc + d)%Z
      | None => None
      end
  end.

Definition py_int (s : string) : option Z :=
  match s with
  | EmptyString => None
  | _ => digits s 0%Z
  end.

(** A reading of [float] on the literals the samples use. *)
Definition py_float (s : string) : option spec_float :=
  if String.eqb s "0.8" then Some (S754_finite false 7205759403792794 (-53))
  else if String.eqb s "0.3" then Some (S754_finite false 5404319552844595 (-54))
  else if String.eqb s "0.5" then Some (S754_finite false 1 (-1))
  else None.

Definition score_08 : spec_float := S754_finite false 7205759403792794 (-53).
Definition score_03 : spec_float := S754_finite false 5404319552844595 (-54).

(** NUMERIC affinity read on plain decimal digits. *)
Definition sql_numeric (s : string) : option Z := py_int s.

Definition revel_line (c p r a s : string) : gmap string (option string) :=
  <["chr" := Some c]> (<["grch38_pos" := Some p]> (<["ref" := Some r]>
    (<["alt" := Some a]> (<["REVEL" := Some s]> ∅)))).

(** A source file: a row before chromosome 6, a scored variant, a row
    whose position does not parse, the same variant with another score, a
    placeholder position, a second variant, a row past the bound and a row
    of chromosome 6 after it. *)
Definition revel_rows : list (gmap string (option string)) :=
  [ revel_line "1" "50" "A" "C" "0.5";
    revel_line "6" "100" "A" "T" "0.8";
    revel_line "6" "1e3" "A" "T" "0.5";
    revel_line "6" "100" "A" "T" "0.3";
    revel_line "6" "." "A" "T" "0.5";
    revel_line "6" "200" "G" "C" "0.3";
    revel_line "7" "300" "A" "G" "0.5";
    revel_line "6" "400" "A" "G" "0.5" ].

Definition revel_table : list Sqlite.revel_row :=
  [ Sqlite.mk_row (Some "6") 100 (Some "A") (Some "T") score_08;
    Sqlite.mk_row (Some "6") 200 (Some "G") (Some "C") score_03 ].

(** A dataset: a scored variant, an unscored one and a row without an
    identifier. *)
Definition gene_frame : Pandas.DataFrame :=
  Pandas.mk_df ["hg38_gnomad_format"; "gene"]
    [ [PyStr "6-100-A-T"; PyStr "EYS"];
      [PyStr "7-300-A-G"; PyStr "EYS"];
      [Pandas.NaN; PyStr "EYS"] ].

(** The same with a malformed identifier in place of the second. *)
Definition gene_frame_malformed : Pandas.DataFrame :=
  Pandas.mk_df ["hg38_gnomad_format"; "gene"]
    [ [PyStr "6-100-A-T"; PyStr "EYS"];
      [PyStr "7-300"; PyStr "EYS"];
      [Pandas.NaN; PyStr "EYS"] ].

Definition job_href : string :=
  "https://cadd.bihealth.org/static/finished/GRCh38-v1.7_0123456789abcdef0123456789abcdef.tsv.gz".

(** A session in which the result is ready at once. *)
Definition session_finished : Cadd.session :=
  Cadd.mk_session (Returned tt) (Returned tt) (Returned tt) (Returned tt)
    (Returned job_href) (Returned tt)
    (Raised TimeoutException) (Returned tt)
    (fun _ => Returned tt) (fun _ => Raised TimeoutException) (fun _ => Returned tt)
    tsv_lines.

(** A session in which the job is queued and finishes at the third poll. *)
Definition session_queued : Cadd.session :=
  Cadd.mk_session (Returned tt) (Returned tt) (Returned tt) (Returned tt)
    (Raised TimeoutException) (Returned tt)
    (Returned "https://cadd.bihealth.org/check_avail/GRCh38-v1.7_0123456789abcdef0123456789abcdef.tsv.gz")
    (Returned tt)
    (fun _ => Returned tt)
    (fun k => if (k <? 2)%nat then Raised TimeoutException else Returned job_href)
    (fun _ => Returned tt)
    tsv_lines.

(** A session in which neither link shows up. *)
Definition session_unresolvable : Cadd.session :=
  Cadd.mk_session (Returned tt) (Returned tt) (Returned tt) (Returned tt)
    (Raised TimeoutException) (Returned tt)
    (Raised TimeoutException) (Returned tt)
    (fun _ => Returned tt) (fun _ => Raised TimeoutException) (fun _ => Returned tt)
    [].

Definition world_0 : Cadd.world :=
  Cadd.mk_world (<[0%nat := gene_frame]> ∅) ∅.

Definition scored_frame : Pandas.DataFrame :=
  Pandas.mk_df ["hg38_gnomad_format"; "gene"; "PHRED_cadd"]
    [ [PyStr "6-100-A-T"; PyStr "EYS"; PyStr "9.9"];
      [PyStr "7-300-A-G"; PyStr "EYS"; PyStr Cadd.unavailable];
      [Pandas.NaN; PyStr "EYS"; PyStr Cadd.unavailable] ].

(** The world after the pipeline ran on [world_0]. *)
Definition world_1 : Cadd.world :=
  Cadd.mk_world
    (<[2%nat := scored_frame]> (<[1%nat := gene_frame]> (<[0%nat := gene_frame]> ∅)))
    (<["ws/cadd/GRCh38-v1.7_0123456789abcdef0123456789abcdef.tsv" := tsv_lines]>
       (<["ws/cadd/cadd.vcf" := vcf_lines]> ∅)).

(** A destination written by an earlier run. *)
Definition previous_frame : Pandas.DataFrame :=
  Pandas.mk_df ["hg38_gnomad_format"; "gene"; "PHRED_cadd"]
    [ [PyStr "6-500-C-G"; PyStr "EYS"; PyStr "12.1"];
      [PyStr "6-600-T-A"; PyStr "EYS"; PyStr "3.4"] ].

Definition disk_0 : Route.disk :=
  Route.mk_disk
    (<["ws/u1/in.csv" := gene_frame]> (<["ws/u1/out.csv" := previous_frame]> ∅)) ∅.

(** A request for [out.csv] from [in.csv] with the given [override]. *)
Definition apply_request (override : string) : Route.request :=
  Route.mk_request (<["uuid" := "u1"]> (<["sid" := "s1"]> ∅))
                   (<["override" := override]> (<["applyTo" := "in.csv"]> ∅)).

Definition scoring_texts : gmap string (list string) :=
  <["ws/u1/cadd/GRCh38-v1.7_0123456789abcdef0123456789abcdef.tsv" := tsv_lines]>
    (<["ws/u1/cadd/cadd.vcf" := vcf_lines]> ∅).

End Demo.

(** * Properties *)

(** Unfolds the sequencing of outcomes and nothing else. *)
Ltac py_simpl := cbn [mbind outcome_bind Py.bind mret outcome_ret].

(** ** Facts about the runtime pieces *)

Section SplitFacts.

Lemma split_nonempty sep s : Py.split sep s <> [].
Proof.
  destruct s as [|c s]; simpl; [discriminate|].
  destruct (Ascii.eqb c sep); [discriminate|].
  destruct (Py.split sep s); discriminate.
Qed.

Lemma split_free sep s : Py.free_of sep s = true -> Py.split sep s = [s].
Proof.
  induction s as [|c s IH]; simpl; [reflexivity|].
  intros [Hc Hs]%andb_true_iff.
  apply negb_true_iff in Hc. rewrite Hc, (IH Hs). reflexivity.
Qed.

Lemma split_app_sep sep w s :
  Py.free_of sep w = true ->
  Py.split sep (w +:+ String sep s) = w :: Py.split sep s.
Proof.
  induction w as [|c w IH]; simpl.
  - intros _. rewrite Ascii.eqb_refl. reflexivity.
  - intros [Hc Hw]%andb_true_iff. apply negb_true_iff in Hc.
    rewrite Hc, (IH Hw). reflexivity.
Qed.

(** Splitting a joined list of separator-free parts gives the parts back. *)
Lemma split_join sep parts :
  parts <> [] ->
  forallb (Py.free_of sep) parts = true ->
  Py.split sep (Py.join sep parts) = parts.
Proof.
  induction parts as [|w ws IH]; [congruence|].
  intros _ [Hw Hws]%andb_true_iff.
  destruct ws as [|w' ws'].
  - simpl. apply split_free, Hw.
  - change (Py.join sep (w :: w' :: ws')) with (w +:+ String sep (Py.join sep (w' :: ws'))).
    rewrite split_app_sep by exact Hw.
    rewrite IH; [reflexivity|discriminate|exact Hws].
Qed.

End SplitFacts.

(** ** [parse_variant] *)

Section ParseVariant.
Import Cadd.

Lemma parse_variant_str s :
  parse_variant (PyStr s) =
    match Py.split "-" s with
    | [c; p; r; a] => Returned (c, p, r, a)
    | [c; p; _] => Returned (c, p, ".", ".")
    | _ => Raised ValueError
    end.
Proof.
  unfold parse_variant, try_except; simpl.
  destruct (Py.split "-" s) as [|a [|b [|c [|d [|e l]]]]]; reflexivity.
Qed.

(** An identifier written [c-p-r-a] with hyphen-free parts parses to its
    four parts. *)
Lemma parse_variant_joined c p r a :
  forallb (free_of "-") [c; p; r; a] = true ->
  parse_variant (PyStr (join "-" [c; p; r; a])) = Returned (c, p, r, a).
Proof.
  intros H. rewrite parse_variant_str, split_join by (done || exact H).
  reflexivity.
Qed.

(** C2 on the code: a string that splits into neither four nor three
    parts is not given the sentinel and not parsed either: the second
    unpacking, the one inside the [except ValueError] clause, raises
    [ValueError] again, and no clause catches it.  The empty string, which
    is one part, is such a string, and so is [1-123], the example of the
    function's docstring. *)
Theorem parse_variant_raises_in_handler (s : string) :
  length (Py.split "-" s) <> 4%nat -> length (Py.split "-" s) <> 3%nat ->
  parse_variant (PyStr s) = Raised ValueError.
Proof.
  rewrite parse_variant_str.
  destruct (Py.split "-" s) as [|a [|b [|c [|d [|e l]]]]]; simpl;
    intros H4 H3; try reflexivity; congruence.
Qed.

Lemma parse_variant_raises_in_handler_witness :
  parse_variant (PyStr "1-123") = Raised ValueError /\
  parse_variant (PyStr EmptyString) = Raised ValueError.
Proof.
  split.
  - apply (parse_variant_raises_in_handler "1-123"); vm_compute; congruence.
  - apply (parse_variant_raises_in_handler EmptyString); vm_compute; congruence.
Defined.

End ParseVariant.

(** ** [parse_tsv] *)

Section ParseTsv.
Import Cadd.

Lemma for_each_total {S A} (f : S -> A -> S) (body : S -> A -> outcome S)
    (xs : list A) (s : S) :
  (forall s x, x ∈ xs -> body s x = Returned (f s x)) ->
  for_each body xs s = Returned (foldl f s xs).
Proof.
  revert s. induction xs as [|x xs IH]; intros s H; simpl; [reflexivity|].
  rewrite H by constructor. simpl. apply IH.
  intros s' y Hy. apply H. by constructor.
Qed.

Lemma tsv_step_ok d line :
  tsv_line_ok line = true -> tsv_step d line = Returned (tsv_insert d line).
Proof.
  unfold tsv_line_ok, tsv_step, tsv_insert, tsv_record.
  destruct (startswith line "#"); [reflexivity|]. simpl.
  destruct (columns_of line) as [|c0 [|c1 [|c2 [|c3 [|c4 [|c5 l]]]]]];
    simpl; intros H; try discriminate. reflexivity.
Qed.

Lemma vcf_step_ok d acc line :
  vcf_step d acc line = Returned (acc ++ [cell_for d line]).
Proof.
  unfold vcf_step, cell_for, vcf_variant.
  destruct (columns_of line) as [|c0 [|c1 [|c2 [|c3 [|c4 l]]]]]; reflexivity.
Qed.

Lemma foldl_snoc_map {A B} (g : A -> B) (xs : list A) (acc : list B) :
  foldl (fun acc x => acc ++ [g x]) acc xs = acc ++ map g xs.
Proof.
  revert acc. induction xs as [|x xs IH]; intros acc; simpl.
  - by rewrite app_nil_r.
  - rewrite IH, <- app_assoc. reflexivity.
Qed.

(** A key no line carries keeps the entry it had. *)
Lemma tsv_table_miss k tsv d :
  (forall t v sc, t ∈ tsv -> tsv_record t = Some (v, sc) -> key_of v <> k) ->
  foldl tsv_insert d tsv !! k = d !! k.
Proof.
  revert d. induction tsv as [|t tsv IH]; intros d H; simpl; [reflexivity|].
  rewrite IH by (intros u v sc Hu; apply H; by constructor).
  unfold tsv_insert. destruct (tsv_record t) as [[v sc]|] eqn:E; [|reflexivity].
  apply lookup_insert_ne. eapply H; [constructor|exact E].
Qed.

(** The last line carrying a key decides its entry. *)
Lemma tsv_table_hit k pre t post v sc d :
  tsv_record t = Some (v, sc) -> key_of v = k ->
  (forall u w s', u ∈ post -> tsv_record u = Some (w, s') -> key_of w <> k) ->
  foldl tsv_insert d (pre ++ t :: post) !! k = Some sc.
Proof.
  intros E Hk Hpost. rewrite foldl_app. simpl.
  rewrite tsv_table_miss by exact Hpost.
  unfold tsv_insert at 1. rewrite E, Hk. apply lookup_insert_eq.
Qed.

Lemma append_colon_inj a a' x x' :
  free_of ":" a = true -> free_of ":" a' = true ->
  a +:+ String ":" x = a' +:+ String ":" x' -> a = a' /\ x = x'.
Proof.
  revert a'. induction a as [|c a IH]; intros [|c' a']; simpl.
  - intros _ _ H. by injection H.
  - intros _ [Hc _]%andb_true_iff H. injection H as <- _.
    by rewrite Ascii.eqb_refl in Hc.
  - intros [Hc _]%andb_true_iff _ H. injection H as -> _.
    by rewrite Ascii.eqb_refl in Hc.
  - intros [_ Ha]%andb_true_iff [_ Ha']%andb_true_iff H.
    injection H as -> H. destruct (IH _ Ha Ha' H) as [-> ->]. done.
Qed.

(** On fields without a colon the joined key identifies the four fields. *)
Lemma key_of_inj v v' :
  colon_free v = true -> colon_free v' = true ->
  key_of v' = key_of v -> v' = v.
Proof.
  destruct v as [[[a b] c] d], v' as [[[a' b'] c'] d']. unfold colon_free, key_of.
  intros [[Ha Hb]%andb_true_iff Hc]%andb_true_iff
         [[Ha' Hb']%andb_true_iff Hc']%andb_true_iff H.
  apply append_colon_inj in H as [-> H]; [|done..].
  apply append_colon_inj in H as [-> H]; [|done..].
  apply append_colon_inj in H as [-> ->]; done.
Qed.

(** C3: on a result file whose data lines all have their six columns,
    [parse_tsv] returns one cell per line of the submitted file, in the
    order of the lines: the cell of line [i] is the marker when the line has
    no variant or no line of the result file carries its key, and otherwise
    the score of the last result line with that key; on colon-free fields
    the key is the four fields themselves. *)
Theorem parse_tsv_one_cell_per_row
    (files : gmap string (list string)) (tsv_path vcf_path : string)
    (tsv vcf : list string) :
  files !! tsv_path = Some tsv ->
  files !! vcf_path = Some vcf ->
  forallb tsv_line_ok tsv = true ->
  exists scores : list string,
    parse_tsv files tsv_path vcf_path = Returned scores /\
    length scores = length vcf /\
    (forall (i : nat) (line : string), vcf !! i = Some line ->
       exists cell : string, scores !! i = Some cell /\
         (vcf_variant line = None -> cell = unavailable) /\
         (forall v, vcf_variant line = Some v ->
            (forall t v' sc, t ∈ tsv -> tsv_record t = Some (v', sc) ->
               key_of v' <> key_of v) ->
            cell = unavailable) /\
         (forall v pre t post v' sc,
            vcf_variant line = Some v ->
            tsv = pre ++ t :: post ->
            tsv_record t = Some (v', sc) -> key_of v' = key_of v ->
            (forall u w s', u ∈ post -> tsv_record u = Some (w, s') ->
               key_of w <> key_of v) ->
            cell = sc)) /\
    (forall v v', colon_free v = true -> colon_free v' = true ->
       (key_of v' = key_of v <-> v' = v)).
Proof.
  intros Htsv Hvcf Hok.
  exists (map (cell_for (foldl tsv_insert ∅ tsv)) vcf).
  assert (Hrun : parse_tsv files tsv_path vcf_path =
                 Returned (map (cell_for (foldl tsv_insert ∅ tsv)) vcf)).
  { unfold parse_tsv, open_text. rewrite Htsv, Hvcf. simpl.
    rewrite (for_each_total tsv_insert).
    - simpl.
      rewrite (for_each_total
                 (fun acc x => acc ++ [cell_for (foldl tsv_insert ∅ tsv) x])).
      + simpl. by rewrite foldl_snoc_map.
      + intros acc x _. apply vcf_step_ok.
    - intros d x Hx. apply tsv_step_ok.
      rewrite forallb_forall in Hok. apply Hok. by apply list_elem_of_In. }
  split; [exact Hrun|]. split; [apply length_map|]. split.
  - intros i line Hi. exists (cell_for (foldl tsv_insert ∅ tsv) line).
    split; [by rewrite list_lookup_fmap, Hi|].
    unfold cell_for. repeat split.
    + by intros ->.
    + intros v -> Hnone. by rewrite tsv_table_miss, lookup_empty.
    + intros v pre t post v' sc -> -> Hrec Hkey Hpost.
      by rewrite (tsv_table_hit _ pre t post v' sc).
  - intros v v' Hv Hv'. split; [by apply key_of_inj | by intros ->].
Qed.

Lemma parse_tsv_one_cell_per_row_witness :
  exists scores : list string,
    parse_tsv Demo.text_files "cadd.tsv" "cadd.vcf" = Returned scores /\
    length scores = 3%nat.
Proof.
  destruct (parse_tsv_one_cell_per_row Demo.text_files "cadd.tsv" "cadd.vcf"
              Demo.tsv_lines Demo.vcf_lines)
    as (scores & Hrun & Hlen & _);
    [vm_compute; reflexivity | vm_compute; reflexivity
    | vm_compute; reflexivity |].
  exists scores. split; [exact Hrun | exact Hlen].
Defined.

Example parse_tsv_demo :
  parse_tsv Demo.text_files "cadd.tsv" "cadd.vcf" =
    Returned ["9.9"; unavailable; unavailable].
Proof. vm_compute. reflexivity. Qed.

(** A data line with fewer than six columns makes the whole call raise. *)
Example parse_tsv_short_line :
  parse_tsv (<["cadd.tsv" := ["6"]]> Demo.text_files) "cadd.tsv" "cadd.vcf" =
    Raised ValueError.
Proof. vm_compute. reflexivity. Qed.

End ParseTsv.

(** ** The primary key of the [revel] table *)

Section PrimaryKey.
Import Sqlite.

Lemma text_eq_sym a b : text_eq a b = text_eq b a.
Proof. destruct a, b; simpl; try reflexivity. apply String.eqb_sym. Qed.

Lemma text_eq_true a b : text_eq a b = true <-> exists s, a = Some s /\ b = Some s.
Proof.
  destruct a as [x|], b as [y|]; simpl; split;
    try discriminate; try (intros (s & ? & ?); discriminate).
  - intros ->%String.eqb_eq. eauto.
  - intros (s & [= ->] & [= ->]). apply String.eqb_refl.
Qed.

Lemma pk_conflict_sym r1 r2 : pk_conflict r1 r2 = pk_conflict r2 r1.
Proof.
  unfold pk_conflict.
  by rewrite (text_eq_sym (chr r1)), (Z.eqb_sym (grch38_pos r1)),
    (text_eq_sym (ref r1)), (text_eq_sym (alt r1)).
Qed.

Lemma key_matches_true c p r a row :
  key_matches c p r a row = true <->
  chr row = Some c /\ grch38_pos row = p /\ ref row = Some r /\ alt row = Some a.
Proof.
  unfold key_matches. rewrite !andb_true_iff, !text_eq_true, Z.eqb_eq.
  split.
  - intros [[[(s1 & -> & [= ->]) ->] (s2 & -> & [= ->])] (s3 & -> & [= ->])]. done.
  - intros (-> & -> & -> & ->). eauto 10.
Qed.

(** Two rows carrying one key conflict; a row that conflicts with a row
    carrying a key carries it too. *)
Lemma key_matches_conflict c p r a r1 r2 :
  key_matches c p r a r1 = true -> key_matches c p r a r2 = true ->
  pk_conflict r1 r2 = true.
Proof.
  intros (H1 & H2 & H3 & H4)%key_matches_true (G1 & G2 & G3 & G4)%key_matches_true.
  unfold pk_conflict. rewrite H1, H2, H3, H4, G1, G2, G3, G4. simpl.
  by rewrite !String.eqb_refl, Z.eqb_refl.
Qed.

Lemma conflict_key_matches c p r a r1 r2 :
  pk_conflict r1 r2 = true -> key_matches c p r a r2 = true ->
  key_matches c p r a r1 = true.
Proof.
  unfold pk_conflict. rewrite !andb_true_iff, !text_eq_true, Z.eqb_eq.
  intros [[[(s1 & E1 & E1') E2] (s3 & E3 & E3')] (s4 & E4 & E4')]
         (G1 & G2 & G3 & G4)%key_matches_true.
  apply key_matches_true. repeat split; congruence.
Qed.

Lemma insert_or_ignore_cases tbl r :
  (existsb (pk_conflict r) tbl = true /\ insert_or_ignore tbl r = tbl) \/
  (existsb (pk_conflict r) tbl = false /\ insert_or_ignore tbl r = tbl ++ [r]).
Proof.
  unfold insert_or_ignore. destruct (existsb (pk_conflict r) tbl); auto.
Qed.

Lemma insert_or_ignore_unique tbl r :
  pk_unique tbl -> pk_unique (insert_or_ignore tbl r).
Proof.
  intros Hu. destruct (insert_or_ignore_cases tbl r) as [[_ ->]|[Hno ->]]; [done|].
  assert (Hfresh : forall k old, tbl !! k = Some old -> pk_conflict r old = false).
  { intros k old Hk. apply not_true_is_false. intros Hc.
    assert (existsb (pk_conflict r) tbl = true); [|congruence].
    apply existsb_exists. exists old. split; [|done].
    apply list_elem_of_In, list_elem_of_lookup. eauto. }
  intros i j r1 r2 Hi Hj Hc.
  apply lookup_app_Some in Hi as [Hi|[Hil Hi]];
    apply lookup_app_Some in Hj as [Hj|[Hjl Hj]].
  - eauto.
  - apply list_lookup_singleton_Some in Hj as [_ <-].
    rewrite pk_conflict_sym, (Hfresh _ _ Hi) in Hc. done.
  - apply list_lookup_singleton_Some in Hi as [_ <-].
    rewrite (Hfresh _ _ Hj) in Hc. done.
  - apply list_lookup_singleton_Some in Hi as [? _].
    apply list_lookup_singleton_Some in Hj as [? _]. lia.
Qed.

Lemma insert_or_ignore_prefix tbl r : tbl `prefix_of` insert_or_ignore tbl r.
Proof.
  destruct (insert_or_ignore_cases tbl r) as [[_ ->]|[_ ->]];
    [done | by apply prefix_app_r].
Qed.

Lemma insert_or_ignore_elem tbl r x :
  x ∈ insert_or_ignore tbl r -> x ∈ tbl \/ x = r.
Proof.
  destruct (insert_or_ignore_cases tbl r) as [[_ ->]|[_ ->]]; [auto|].
  rewrite elem_of_app, list_elem_of_singleton. done.
Qed.

(** First writer wins: a key that has its record keeps exactly that one. *)
Lemma insert_or_ignore_keeps c p r a tbl row0 row :
  filter (fun x => key_matches c p r a x = true) tbl = [row0] ->
  filter (fun x => key_matches c p r a x = true) (insert_or_ignore tbl row) = [row0].
Proof.
  intros Hf. destruct (insert_or_ignore_cases tbl row) as [[_ ->]|[Hno ->]]; [done|].
  rewrite filter_app, Hf.
  destruct (key_matches c p r a row) eqn:Hk.
  - exfalso. assert (H0 : row0 ∈ filter (fun x => key_matches c p r a x = true) tbl)
      by (rewrite Hf; constructor).
    apply list_elem_of_filter in H0 as [Hk0 Hin].
    assert (existsb (pk_conflict row) tbl = true); [|congruence].
    apply existsb_exists. exists row0. split; [by apply list_elem_of_In|].
    eapply key_matches_conflict; eauto.
  - rewrite filter_cons_False by (simpl; congruence). done.
Qed.

(** A key without a record gets the row that carries it. *)
Lemma insert_or_ignore_new c p r a tbl row :
  filter (fun x => key_matches c p r a x = true) tbl = [] ->
  key_matches c p r a row = true ->
  filter (fun x => key_matches c p r a x = true) (insert_or_ignore tbl row) = [row].
Proof.
  intros Hf Hk. destruct (insert_or_ignore_cases tbl row) as [[Hex _]|[_ ->]].
  - exfalso. apply existsb_exists in Hex as (old & Hin & Hc).
    rewrite pk_conflict_sym in Hc.
    assert (H0 : old ∈ filter (fun x => key_matches c p r a x = true) tbl).
    { apply list_elem_of_filter. split; [|by apply list_elem_of_In].
      eapply conflict_key_matches; eauto. }
    rewrite Hf in H0. by apply not_elem_of_nil in H0.
  - rewrite filter_app, Hf. simpl. by rewrite filter_cons_True.
Qed.

(** Rows carrying other keys leave the key alone. *)
Lemma insert_or_ignore_other c p r a tbl row :
  key_matches c p r a row = false ->
  filter (fun x => key_matches c p r a x = true) (insert_or_ignore tbl row) =
  filter (fun x => key_matches c p r a x = true) tbl.
Proof.
  intros Hk. destruct (insert_or_ignore_cases tbl row) as [[_ ->]|[_ ->]]; [done|].
  rewrite filter_app, filter_cons_False by (simpl; congruence).
  by rewrite app_nil_r.
Qed.

End PrimaryKey.

(** ** [executemany] and the loop of [init_table] *)

Section InitTable.
Import Sqlite Revel.

Variable py_int : string -> option Z.
Variable py_float : string -> option spec_float.

Abbreviation key_filter c p r a := (filter (fun x => key_matches c p r a x = true)).

Lemma apply_rows_app tbl ts1 ts2 :
  apply_rows tbl (ts1 ++ ts2) = apply_rows (apply_rows tbl ts1) ts2.
Proof. unfold apply_rows. by rewrite map_app, foldl_app. Qed.

Lemma apply_rows_cons tbl t ts :
  apply_rows tbl (t :: ts) = apply_rows (insert_or_ignore tbl (row_of_tuple t)) ts.
Proof. reflexivity. Qed.

Lemma executemany_ok tbl ch tbl' :
  executemany tbl ch = (tbl', None) -> tbl' = apply_rows tbl ch.
Proof.
  revert tbl. induction ch as [|t ch IH]; intros tbl; simpl.
  - by intros [= <-].
  - destruct t as [[[[c p] r] a] s]. unfold bind_row.
    destruct (fits_int64 p); [|discriminate]. intros H. by apply IH in H.
Qed.

Lemma executemany_fits tbl ch :
  Forall (fun t => fits_int64 (grch38_pos (row_of_tuple t)) = true) ch ->
  executemany tbl ch = (apply_rows tbl ch, None).
Proof.
  revert tbl. induction ch as [|t ch IH]; intros tbl Hall; [reflexivity|].
  apply Forall_cons in Hall as [Ht Hall]. simpl.
  destruct t as [[[[c p] r] a] s]. simpl in *. rewrite Ht. by apply IH.
Qed.

Lemma executemany_unique tbl ch :
  pk_unique tbl -> pk_unique (fst (executemany tbl ch)).
Proof.
  revert tbl. induction ch as [|t ch IH]; intros tbl Hu; simpl; [done|].
  destruct (bind_row t); [|done]. by apply IH, insert_or_ignore_unique.
Qed.

Lemma executemany_prefix tbl ch : tbl `prefix_of` fst (executemany tbl ch).
Proof.
  revert tbl. induction ch as [|t ch IH]; intros tbl; simpl; [done|].
  destruct (bind_row t); [|done].
  etrans; [apply insert_or_ignore_prefix | apply IH].
Qed.

Lemma bind_row_returned t r : bind_row t = Returned r -> r = row_of_tuple t.
Proof.
  destruct t as [[[[c p] rf] a] s]. unfold bind_row.
  destruct (fits_int64 p); [by intros [= <-] | discriminate].
Qed.

Lemma executemany_elem tbl ch x :
  x ∈ fst (executemany tbl ch) ->
  x ∈ tbl \/ exists t, t ∈ ch /\ x = row_of_tuple t.
Proof.
  revert tbl. induction ch as [|t ch IH]; intros tbl; simpl; [auto|].
  destruct (bind_row t) as [r|] eqn:E; [|auto].
  intros [Hx|(t' & Ht' & ->)]%IH.
  - apply insert_or_ignore_elem in Hx as [Hx| ->]; [auto|].
    right. exists t. split; [constructor | by apply bind_row_returned].
  - right. exists t'. split; [by constructor | done].
Qed.

Lemma apply_rows_keeps c p r a tbl ts row0 :
  key_filter c p r a tbl = [row0] ->
  key_filter c p r a (apply_rows tbl ts) = [row0].
Proof.
  revert tbl. induction ts as [|t ts IH]; intros tbl H; [done|].
  rewrite apply_rows_cons. by apply IH, insert_or_ignore_keeps.
Qed.

Lemma apply_rows_none c p r a tbl ts :
  key_filter c p r a tbl = [] ->
  Forall (fun t => key_matches c p r a (row_of_tuple t) = false) ts ->
  key_filter c p r a (apply_rows tbl ts) = [].
Proof.
  revert tbl. induction ts as [|t ts IH]; intros tbl H Hall; [done|].
  apply Forall_cons in Hall as [Ht Hall].
  rewrite apply_rows_cons. apply IH; [|done].
  by rewrite insert_or_ignore_other.
Qed.

(** The first tuple of a key decides the key's record, whatever follows. *)
Lemma apply_rows_first c p r a ts1 t ts2 :
  Forall (fun t => key_matches c p r a (row_of_tuple t) = false) ts1 ->
  key_matches c p r a (row_of_tuple t) = true ->
  key_filter c p r a (apply_rows [] (ts1 ++ t :: ts2)) = [row_of_tuple t].
Proof.
  intros H1 Ht. rewrite apply_rows_app, apply_rows_cons.
  apply apply_rows_keeps, insert_or_ignore_new; [|done].
  by apply apply_rows_none.
Qed.

Lemma commit_chunk_returned st st' :
  commit_chunk st = Returned st' ->
  conn st' = apply_rows (conn st) (chunk st) /\ chunk st' = [] /\ log st' = log st.
Proof.
  unfold commit_chunk. destruct (chunk st) as [|t ch] eqn:E.
  - intros [= <-]. by rewrite E.
  - destruct (executemany (conn st) (t :: ch)) as [tbl [e|]] eqn:Hex; [discriminate|].
    intros [= <-]. simpl. by apply executemany_ok in Hex.
Qed.

Lemma commit_chunk_conn st st' :
  commit_chunk st = Returned st' -> conn st' = fst (executemany (conn st) (chunk st)).
Proof.
  unfold commit_chunk. destruct (chunk st) as [|t ch] eqn:E.
  - by intros [= <-].
  - destruct (executemany (conn st) (t :: ch)) as [tbl [e|]] eqn:Hex; [discriminate|].
    by intros [= <-].
Qed.

Lemma commit_chunk_fits st :
  Forall (fun t => fits_int64 (grch38_pos (row_of_tuple t)) = true) (chunk st) ->
  exists st', commit_chunk st = Returned st'.
Proof.
  intros H. unfold commit_chunk. destruct (chunk st) as [|t ch] eqn:E; [eauto|].
  rewrite executemany_fits by done. eauto.
Qed.

Lemma append_row_conn row st : conn (append_row py_int py_float row st) = conn st.
Proof. unfold append_row. by destruct (make_tuple _ _ row). Qed.

(** What a committed load amounts to: the table as if the pending chunk
    were committed is the one obtained from the tuples taken, in order. *)
Lemma load_rows_view rows idx st st' :
  load_rows py_int py_float rows idx st = (None, st') ->
  apply_rows (conn st') (chunk st') =
    apply_rows (conn st) (chunk st ++ taken py_int py_float rows).
Proof.
  revert idx st. induction rows as [|row rows IH]; intros idx st; simpl.
  - intros [= <-]. by rewrite app_nil_r.
  - destruct (if (idx mod chunk_size =? 0)%N then commit_chunk st else Returned st)
      as [st1|e] eqn:Hc; [|discriminate].
    assert (Hv : apply_rows (conn st1) (chunk st1) = apply_rows (conn st) (chunk st)).
    { destruct (idx mod chunk_size =? 0)%N; [|by injection Hc as <-].
      apply commit_chunk_returned in Hc as (-> & -> & _). done. }
    destruct (classify row) as [[| |]|e]; [..|discriminate].
    + intros [= <-]. by rewrite app_nil_r.
    + intros H. rewrite (IH _ _ H), !apply_rows_app. by rewrite Hv.
    + intros H. rewrite (IH _ _ H). unfold append_row.
      destruct (make_tuple py_int py_float row) as [t|e]; simpl.
      * rewrite <- app_assoc. simpl. rewrite !apply_rows_app. by rewrite Hv.
      * rewrite !apply_rows_app. by rewrite Hv.
Qed.

Lemma contributes_cons row rows t :
  contributes py_int py_float rows t -> contributes py_int py_float (row :: rows) t.
Proof. intros (r & Hr & H). exists r. split; [by constructor | done]. Qed.

(** Whatever ends the loop, every committed or pending tuple was there
    before or comes from a row the loop took. *)
Lemma load_rows_source rows idx st e st' :
  load_rows py_int py_float rows idx st = (e, st') ->
  (forall x, x ∈ conn st' ->
     x ∈ conn st \/
     exists t, (t ∈ chunk st \/ contributes py_int py_float rows t) /\
               x = row_of_tuple t) /\
  (forall t, t ∈ chunk st' -> t ∈ chunk st \/ contributes py_int py_float rows t).
Proof.
  revert idx st. induction rows as [|row rows IH]; intros idx st; simpl.
  - intros [= <- <-]. auto.
  - destruct (if (idx mod chunk_size =? 0)%N then commit_chunk st else Returned st)
      as [st1|e1] eqn:Hc; [|intros [= <- <-]; auto].
    assert (H1 : (forall x, x ∈ conn st1 ->
                    x ∈ conn st \/ exists t, t ∈ chunk st /\ x = row_of_tuple t) /\
                 (forall t, t ∈ chunk st1 -> t ∈ chunk st)).
    { destruct (idx mod chunk_size =? 0)%N; [|injection Hc as <-; auto].
      pose proof (commit_chunk_conn _ _ Hc) as Hconn.
      apply commit_chunk_returned in Hc as (_ & Hch & _). split.
      - intros x Hx. rewrite Hconn in Hx. by apply executemany_elem in Hx.
      - intros t Ht. rewrite Hch in Ht. by apply not_elem_of_nil in Ht. }
    destruct H1 as [H1 H2].
    assert (Hlift : forall st2,
      conn st2 = conn st1 ->
      (forall t, t ∈ chunk st2 ->
         t ∈ chunk st1 \/ contributes py_int py_float (row :: rows) t) ->
      load_rows py_int py_float rows (idx + 1)%N st2 = (e, st') ->
      (forall x, x ∈ conn st' ->
         x ∈ conn st \/
         exists t, (t ∈ chunk st \/ contributes py_int py_float (row :: rows) t) /\
                   x = row_of_tuple t) /\
      (forall t, t ∈ chunk st' ->
         t ∈ chunk st \/ contributes py_int py_float (row :: rows) t)).
    { intros st2 Hconn Hch Hrun. apply IH in Hrun as [G1 G2]. split.
      - intros x [Hx|(t & [Ht|Ht] & ->)]%G1.
        + rewrite Hconn in Hx. apply H1 in Hx as [Hx|(t & Ht & ->)]; eauto.
        + apply Hch in Ht as [Ht%H2|Ht]; right; exists t; auto.
        + right. exists t. split; [right; by apply contributes_cons | done].
      - intros t [Ht|Ht]%G2.
        + apply Hch in Ht as [Ht%H2|Ht]; auto.
        + right. by apply contributes_cons. }
    destruct (classify row) as [[| |]|e1] eqn:Hcl.
    + intros [= <- <-]. split; [|by eauto]. intros x [Hx|(t & Ht & ->)]%H1; eauto.
    + apply Hlift; [done | auto].
    + apply Hlift; [apply append_row_conn|].
      unfold append_row. destruct (make_tuple py_int py_float row) as [t|] eqn:Hm;
        simpl; [|auto].
      intros t' [Ht'| ->%list_elem_of_singleton]%elem_of_app; [auto|].
      right. exists row. split; [constructor | done].
    + intros [= <- <-]. split; [|by eauto]. intros x [Hx|(t & Ht & ->)]%H1; eauto.
Qed.

Lemma load_rows_unique rows idx st e st' :
  load_rows py_int py_float rows idx st = (e, st') ->
  pk_unique (conn st) -> pk_unique (conn st').
Proof.
  revert idx st. induction rows as [|row rows IH]; intros idx st; simpl.
  - by intros [= <- <-].
  - destruct (if (idx mod chunk_size =? 0)%N then commit_chunk st else Returned st)
      as [st1|e1] eqn:Hc; [|by intros [= <- <-]].
    intros Hrun Hu.
    assert (Hu1 : pk_unique (conn st1)).
    { destruct (idx mod chunk_size =? 0)%N; [|by injection Hc as <-].
      rewrite (commit_chunk_conn _ _ Hc). by apply executemany_unique. }
    destruct (classify row) as [[| |]|e1].
    + by injection Hrun as <- <-.
    + eauto.
    + eapply IH; [exact Hrun|]. by rewrite append_row_conn.
    + by injection Hrun as <- <-.
Qed.

Lemma field_is_true v s : field_is v s = true <-> v = Some s.
Proof.
  destruct v as [x|]; simpl; [|split; discriminate].
  rewrite String.eqb_eq. split; congruence.
Qed.

(** A row the loop takes has the chromosome ["6"] and a position that is
    not the placeholder. *)
Lemma classify_take row :
  classify row = Returned Take ->
  row !! "chr" = Some (Some "6") /\
  exists p, row !! "grch38_pos" = Some p /\ p <> Some ".".
Proof.
  unfold classify, dict_get.
  destruct (row !! "chr") as [c|]; [|discriminate]. py_simpl.
  destruct (field_gt c _) as [past|]; [|discriminate]. py_simpl.
  destruct past; [discriminate|].
  destruct (field_is c _) eqn:Hc; [|discriminate]. py_simpl.
  apply field_is_true in Hc as ->.
  destruct (row !! "grch38_pos") as [p|]; [|discriminate]. py_simpl.
  destruct (field_is p _) eqn:Hp; [discriminate|]. intros _.
  split; [done|]. exists p. split; [done|].
  intros Heq. apply field_is_true in Heq. congruence.
Qed.

(** A tuple built from a row has the row's chromosome and the integer
    that [int] reads in the row's position. *)
Lemma make_tuple_returned row t :
  make_tuple py_int py_float row = Returned t ->
  exists s, row !! "chr" = Some (chr (row_of_tuple t)) /\
            row !! "grch38_pos" = Some (Some s) /\
            py_int s = Some (grch38_pos (row_of_tuple t)).
Proof.
  unfold make_tuple, dict_get.
  destruct (row !! "chr") as [c|]; [|discriminate]. py_simpl.
  destruct (row !! "grch38_pos") as [[s|]|]; [|discriminate..].
  unfold int_of; py_simpl.
  destruct (py_int s) as [z|] eqn:Hz; [|discriminate]. py_simpl.
  destruct (row !! "ref") as [r|]; [|discriminate]. py_simpl.
  destruct (row !! "alt") as [a|]; [|discriminate]. py_simpl.
  destruct (row !! "REVEL") as [v|]; [|discriminate]. py_simpl.
  destruct (float_of py_float v) as [x|]; [|discriminate]. py_simpl.
  intros [= <-]. simpl. eauto.
Qed.

(** A tuple built from a row has the row's three text fields, the
    integer that [int] reads in its position and the number that [float]
    reads in its score. *)
Lemma make_tuple_fields row t :
  make_tuple py_int py_float row = Returned t ->
  exists s f, row !! "chr" = Some (chr (row_of_tuple t)) /\
    row !! "grch38_pos" = Some (Some s) /\
    py_int s = Some (grch38_pos (row_of_tuple t)) /\
    row !! "ref" = Some (ref (row_of_tuple t)) /\
    row !! "alt" = Some (alt (row_of_tuple t)) /\
    row !! "REVEL" = Some (Some f) /\
    py_float f = Some (REVEL (row_of_tuple t)).
Proof.
  unfold make_tuple, dict_get.
  destruct (row !! "chr") as [c|]; [|discriminate]. py_simpl.
  destruct (row !! "grch38_pos") as [[s|]|]; [|discriminate..].
  unfold int_of; py_simpl.
  destruct (py_int s) as [z|] eqn:Hz; [|discriminate]. py_simpl.
  destruct (row !! "ref") as [r|]; [|discriminate]. py_simpl.
  destruct (row !! "alt") as [a|]; [|discriminate]. py_simpl.
  destruct (row !! "REVEL") as [[f|]|]; [|discriminate..]. unfold float_of; py_simpl.
  destruct (py_float f) as [x|] eqn:Hx; [|discriminate]. py_simpl.
  intros [= <-]. simpl. eauto 10.
Qed.

(** A row of chromosome 6 with a position is taken. *)
Lemma classify_six row s :
  row !! "chr" = Some (Some "6") -> row !! "grch38_pos" = Some (Some s) ->
  s <> "." -> classify row = Returned Take.
Proof.
  intros Hc Hp Hs. unfold classify, dict_get. rewrite Hc. py_simpl.
  unfold field_gt. py_simpl. simpl. rewrite Hp. py_simpl.
  destruct (field_is (Some s) ".") eqn:E; [|done].
  apply field_is_true in E. congruence.
Qed.

(** A taken row whose position or score cannot be read gives no tuple. *)
Lemma make_tuple_unreadable row s :
  row !! "chr" = Some (Some "6") -> row !! "grch38_pos" = Some (Some s) ->
  py_int s = None \/ (exists f, row !! "REVEL" = Some (Some f) /\ py_float f = None) ->
  exists e, make_tuple py_int py_float row = Raised e.
Proof.
  intros Hc Hp Hbad. unfold make_tuple, dict_get. rewrite Hc, Hp. py_simpl.
  unfold int_of; py_simpl.
  destruct (py_int s) as [z|] eqn:Hz; [|eauto]. py_simpl.
  destruct Hbad as [?|(f & Hf & Hx)]; [discriminate|].
  destruct (row !! "ref") as [r|]; [|eauto]. py_simpl.
  destruct (row !! "alt") as [a|]; [|eauto]. py_simpl.
  rewrite Hf. py_simpl. unfold float_of. rewrite Hx. eauto.
Qed.

Lemma commit_chunk_log st st' : commit_chunk st = Returned st' -> log st' = log st.
Proof. by intros (_ & _ & H)%commit_chunk_returned. Qed.

Lemma append_row_log row st :
  log st `prefix_of` log (append_row py_int py_float row st).
Proof.
  unfold append_row. destruct (make_tuple _ _ row); simpl;
    [done | by apply prefix_app_r].
Qed.

Lemma load_rows_log rows idx st e st' :
  load_rows py_int py_float rows idx st = (e, st') -> log st `prefix_of` log st'.
Proof.
  revert idx st. induction rows as [|row rows IH]; intros idx st; simpl.
  - by intros [= <- <-].
  - destruct (if (idx mod chunk_size =? 0)%N then commit_chunk st else Returned st)
      as [st1|e1] eqn:Hc; [|by intros [= <- <-]].
    assert (Hl : log st1 = log st).
    { destruct (idx mod chunk_size =? 0)%N; [by apply commit_chunk_log|].
      by injection Hc as <-. }
    rewrite <- Hl.
    destruct (classify row) as [[| |]|e1]; intros Hrun.
    + by injection Hrun as <- <-.
    + eauto.
    + etrans; [apply append_row_log | eauto].
    + by injection Hrun as <- <-.
Qed.

(** A row the loop takes and cannot convert leaves its entry in the log. *)
Lemma load_rows_logs pre row post idx st st' e :
  load_rows py_int py_float (pre ++ row :: post) idx st = (None, st') ->
  Forall within_bound pre ->
  classify row = Returned Take ->
  make_tuple py_int py_float row = Raised e ->
  (ERROR, "Error in processing row") ∈ log st'.
Proof.
  revert idx st. induction pre as [|r pre IH]; intros idx st; simpl.
  - destruct (if (idx mod chunk_size =? 0)%N then commit_chunk st else Returned st)
      as [st1|e1]; [|discriminate].
    intros Hrun _ Hcl Hm. rewrite Hcl in Hrun.
    apply load_rows_log in Hrun. eapply elem_of_prefix; [|exact Hrun].
    unfold append_row. rewrite Hm. simpl.
    apply elem_of_app. right. constructor.
  - destruct (if (idx mod chunk_size =? 0)%N then commit_chunk st else Returned st)
      as [st1|e1]; [|discriminate].
    intros Hrun [Hr Hpre]%Forall_cons Hcl Hm. unfold within_bound in Hr.
    destruct (classify r) as [[| |]|e1]; [done|eauto..|discriminate].
Qed.

(** Rows before the first one past the bound were classified, if the loop
    ended without an exception. *)
Lemma load_rows_reaches pre rest idx st st' :
  load_rows py_int py_float (pre ++ rest) idx st = (None, st') ->
  Forall within_bound pre ->
  Forall (fun r => classify r = Returned Skip \/ classify r = Returned Take) pre.
Proof.
  revert idx st. induction pre as [|r pre IH]; intros idx st; simpl; [done|].
  destruct (if (idx mod chunk_size =? 0)%N then commit_chunk st else Returned st)
    as [st1|e1]; [|discriminate].
  intros Hrun [Hr Hpre]%Forall_cons. unfold within_bound in Hr.
  destruct (classify r) as [[| |]|e1] eqn:Hcl; [done| | |discriminate];
    (constructor; [rewrite ?Hcl; auto | eauto]).
Qed.

Lemma taken_app pre rest :
  Forall (fun r => classify r = Returned Skip \/ classify r = Returned Take) pre ->
  taken py_int py_float (pre ++ rest) =
    taken py_int py_float pre ++ taken py_int py_float rest.
Proof.
  induction 1 as [|r pre [Hr|Hr] _ IH]; simpl; [done|..]; rewrite Hr; [done|].
  destruct (make_tuple py_int py_float r); [|done]. simpl. by rewrite IH.
Qed.

Lemma taken_contributes rows t :
  t ∈ taken py_int py_float rows -> contributes py_int py_float rows t.
Proof.
  induction rows as [|row rows IH]; simpl; [by intros ?%not_elem_of_nil|].
  destruct (classify row) as [[| |]|e] eqn:Hcl; try by intros ?%not_elem_of_nil.
  - intros Ht. by apply contributes_cons, IH.
  - destruct (make_tuple py_int py_float row) as [t'|] eqn:Hm.
    + intros [->|Ht]%elem_of_cons; [|by apply contributes_cons, IH].
      exists row. split; [constructor | done].
    + intros Ht. by apply contributes_cons, IH.
Qed.

(** With every row classified and every position within 64 bits, the
    loop ends without an exception. *)
Lemma load_rows_total rows idx st :
  Forall (fun row => exists a, classify row = Returned a) rows ->
  Forall (fun row => forall t, make_tuple py_int py_float row = Returned t ->
            fits_int64 (grch38_pos (row_of_tuple t)) = true) rows ->
  Forall (fun t => fits_int64 (grch38_pos (row_of_tuple t)) = true) (chunk st) ->
  exists st', load_rows py_int py_float rows idx st = (None, st') /\
    Forall (fun t => fits_int64 (grch38_pos (row_of_tuple t)) = true) (chunk st').
Proof.
  revert idx st. induction rows as [|row rows IH]; intros idx st Hcl Hfit Hch; simpl.
  - eauto.
  - apply Forall_cons in Hcl as [[a Ha] Hcl]. apply Forall_cons in Hfit as [Hrow Hfit].
    assert (exists st1, (if (idx mod chunk_size =? 0)%N then commit_chunk st
                         else Returned st) = Returned st1 /\
              Forall (fun t => fits_int64 (grch38_pos (row_of_tuple t)) = true)
                     (chunk st1)) as (st1 & -> & Hch1).
    { destruct (idx mod chunk_size =? 0)%N; [|eauto].
      destruct (commit_chunk_fits _ Hch) as [st1 H1]. exists st1. split; [done|].
      apply commit_chunk_returned in H1 as (_ & -> & _). constructor. }
    rewrite Ha. destruct a; [eauto | by apply IH|].
    apply IH; [done..|]. unfold append_row.
    destruct (make_tuple py_int py_float row) as [t|] eqn:Hm; simpl; [|done].
    apply Forall_app. split; [done|]. constructor; [by apply Hrow | constructor].
Qed.

(** *** The loop of [prepare_revel_database] *)

Lemma executemany_keeps c p r a tbl ch row0 :
  key_filter c p r a tbl = [row0] ->
  key_filter c p r a (fst (executemany tbl ch)) = [row0].
Proof.
  revert tbl. induction ch as [|t ch IH]; intros tbl H; simpl; [done|].
  destruct (bind_row t); [|done]. by apply IH, insert_or_ignore_keeps.
Qed.

Lemma extends_refl tbl : extends tbl tbl.
Proof. by repeat split. Qed.

Lemma extends_trans t1 t2 t3 : extends t1 t2 -> extends t2 t3 -> extends t1 t3.
Proof.
  intros (P1 & U1 & K1) (P2 & U2 & K2). repeat split.
  - by etrans.
  - auto.
  - intros. eauto.
Qed.

Lemma executemany_extends tbl ch : extends tbl (fst (executemany tbl ch)).
Proof.
  repeat split.
  - apply executemany_prefix.
  - apply executemany_unique.
  - intros. by apply executemany_keeps.
Qed.

Lemma convert_row_extends row ch work :
  extends work (snd (convert_row py_int py_float row ch work)).
Proof.
  unfold convert_row. destruct (dict_get row _) as [v|]; [|apply extends_refl].
  destruct (field_is v _); [apply extends_refl|].
  destruct (make_tuple py_int py_float row); [|apply extends_refl].
  apply executemany_extends.
Qed.

Lemma convert_chunk_extends reader left ch work :
  extends work (snd (convert_chunk py_int py_float reader left ch work)).
Proof.
  revert left ch work. induction reader as [|row reader IH]; intros left ch work;
    simpl; [apply extends_refl|].
  destruct (left =? 0)%N; [apply extends_refl|].
  pose proof (convert_row_extends row ch work) as H.
  destruct (convert_row py_int py_float row ch work) as [ch' work'].
  eapply extends_trans; [exact H | apply IH].
Qed.

Lemma convert_rounds_extends rounds reader tbl :
  extends tbl (snd (convert_rounds py_int py_float rounds reader tbl)).
Proof.
  revert reader tbl. induction rounds as [|n IH]; intros reader tbl; simpl;
    [apply extends_refl|].
  pose proof (convert_chunk_extends reader chunk_size [] tbl) as H.
  destruct (convert_chunk py_int py_float reader chunk_size [] tbl) as [reader' work].
  eapply extends_trans; [exact H | apply IH].
Qed.

Lemma convert_rounds_add n m reader tbl :
  convert_rounds py_int py_float (n + m) reader tbl =
    let '(reader', tbl') := convert_rounds py_int py_float n reader tbl in
    convert_rounds py_int py_float m reader' tbl'.
Proof.
  revert reader tbl. induction n as [|n IH]; intros reader tbl; simpl.
  - reflexivity.
  - destruct (convert_chunk py_int py_float reader chunk_size [] tbl). apply IH.
Qed.

Lemma pk_unique_nil : pk_unique [].
Proof. intros i j r1 r2 Hi. by rewrite lookup_nil in Hi. Qed.

(** What [init_table] leaves when it returns. *)
Lemma init_table_returned rows db_path fs fs' lg :
  init_table py_int py_float rows db_path fs = (Returned tt, fs', lg) ->
  fs !! db_path = None /\
  exists st, load_rows py_int py_float rows 0%N (mk_load [] [] start_log) = (None, st) /\
    fs' = <[db_path := Some (apply_rows [] (taken py_int py_float rows))]> fs /\
    lg = log st ++ end_log.
Proof.
  unfold init_table. destruct (fs !! db_path); [discriminate|].
  destruct (load_rows _ _ rows _ _) as [[e|] st] eqn:Hrun; [discriminate|].
  destruct (commit_chunk st) as [st'|e] eqn:Hc; [|discriminate].
  intros [= <- <-]. split; [done|]. exists st. split; [done|].
  pose proof (load_rows_view _ _ _ _ Hrun) as Hv. simpl in Hv.
  apply commit_chunk_returned in Hc as (-> & _ & ->). by rewrite Hv.
Qed.

(** The table [init_table] leaves, whatever its outcome. *)
Lemma init_table_table rows db_path fs res fs' lg :
  fs !! db_path = None ->
  init_table py_int py_float rows db_path fs = (res, fs', lg) ->
  exists tbl, fs' = <[db_path := Some tbl]> fs /\ pk_unique tbl /\
    forall x, x ∈ tbl ->
      exists t, contributes py_int py_float rows t /\ x = row_of_tuple t.
Proof.
  intros Hnew. unfold init_table. rewrite Hnew.
  destruct (load_rows _ _ rows _ _) as [oe st] eqn:Hrun.
  pose proof (load_rows_unique _ _ _ _ _ Hrun pk_unique_nil) as Hu.
  destruct (load_rows_source _ _ _ _ _ Hrun) as [Hs1 Hs2]. simpl in Hs1, Hs2.
  assert (Hconn : forall x, x ∈ conn st ->
            exists t, contributes py_int py_float rows t /\ x = row_of_tuple t).
  { intros x [Hx|(t & [Ht|Ht] & ->)]%Hs1; [by apply not_elem_of_nil in Hx
      | by apply not_elem_of_nil in Ht | eauto]. }
  destruct oe as [e|].
  - intros [= <- <- <-]. eauto.
  - destruct (commit_chunk st) as [st'|e] eqn:Hc.
    + intros [= <- <- <-]. exists (conn st'). split; [done|].
      rewrite (commit_chunk_conn _ _ Hc). split; [by apply executemany_unique|].
      intros x [Hx|(t & Ht & ->)]%executemany_elem; [auto|].
      exists t. split; [|done]. by destruct (Hs2 _ Ht) as [?%not_elem_of_nil|].
    + intros [= <- <- <-]. eauto.
Qed.

(** The converter reaches the first row of a key within the pass that
    reads it. *)
Lemma pending_ok_fits c p r a chunk :
  pending_ok c p r a chunk ->
  Forall (fun t => fits_int64 (grch38_pos (row_of_tuple t)) = true) chunk.
Proof. intros H. eapply Forall_impl; [exact H|]. by intros t [? _]. Qed.

Lemma pending_ok_misses c p r a chunk :
  pending_ok c p r a chunk ->
  Forall (fun t => key_matches c p r a (row_of_tuple t) = false) chunk.
Proof. intros H. eapply Forall_impl; [exact H|]. by intros t [_ ?]. Qed.

Lemma convert_row_passes c p r a row chunk work :
  passes_by py_int py_float c p r a row -> pending_ok c p r a chunk ->
  key_filter c p r a work = [] ->
  pending_ok c p r a (convert_row py_int py_float row chunk work).1 /\
  key_filter c p r a (convert_row py_int py_float row chunk work).2 = [].
Proof.
  intros Hrow Hch Hwork. unfold convert_row, dict_get.
  destruct (row !! "grch38_pos") as [v|] eqn:Hp; [|done].
  destruct (field_is v ".") eqn:Hdot; [done|].
  destruct (make_tuple py_int py_float row) as [t|] eqn:Hm; [|done].
  assert (Ht : fits_int64 (grch38_pos (row_of_tuple t)) = true /\
               key_matches c p r a (row_of_tuple t) = false).
  { apply Hrow; [|done]. intros Heq.
    assert (field_is v "." = true) by (apply field_is_true; congruence).
    congruence. }
  assert (Hch' : pending_ok c p r a (chunk ++ [t])).
  { apply Forall_app. split; [done|]. by constructor. }
  split; [done|]. simpl.
  rewrite executemany_fits by (by eapply pending_ok_fits). simpl.
  apply apply_rows_none; [done|]. by eapply pending_ok_misses.
Qed.

Lemma convert_row_hits c p r a s row chunk work :
  row !! "grch38_pos" <> Some (Some ".") ->
  make_tuple py_int py_float row = Returned (Some c, p, Some r, Some a, s) ->
  fits_int64 p = true ->
  pending_ok c p r a chunk ->
  key_filter c p r a work = [] ->
  key_filter c p r a (convert_row py_int py_float row chunk work).2 =
    [mk_row (Some c) p (Some r) (Some a) s].
Proof.
  intros Hdot Hm Hfit Hch Hwork. unfold convert_row, dict_get.
  destruct (row !! "grch38_pos") as [v|] eqn:Hp.
  - destruct (field_is v ".") eqn:Hv.
    + apply field_is_true in Hv as ->. done.
    + rewrite Hm. simpl.
      rewrite executemany_fits.
      * rewrite apply_rows_app, apply_rows_cons. simpl.
        apply insert_or_ignore_new; [|by apply key_matches_true].
        apply apply_rows_none; [done|]. by eapply pending_ok_misses.
      * apply Forall_app. split; [by eapply pending_ok_fits|]. by constructor.
  - apply make_tuple_returned in Hm as (s0 & _ & Hs & _). congruence.
Qed.

Lemma convert_chunk_reaches c p r a s pre row post left chunk work :
  Forall (passes_by py_int py_float c p r a) pre ->
  row !! "grch38_pos" <> Some (Some ".") ->
  make_tuple py_int py_float row = Returned (Some c, p, Some r, Some a, s) ->
  fits_int64 p = true ->
  pending_ok c p r a chunk ->
  key_filter c p r a work = [] ->
  (N.of_nat (length pre) < left)%N ->
  key_filter c p r a
    (convert_chunk py_int py_float (pre ++ row :: post) left chunk work).2 =
    [mk_row (Some c) p (Some r) (Some a) s].
Proof.
  intros Hpre Hdot Hm Hfit. revert left chunk work.
  induction Hpre as [|r0 pre Hr0 Hpre IH]; intros left chunk work Hch Hwork Hleft; simpl.
  - destruct (left =? 0)%N eqn:E; [apply N.eqb_eq in E; lia|].
    pose proof (convert_row_hits c p r a s row chunk work Hdot Hm Hfit Hch Hwork) as Hhit.
    destruct (convert_row py_int py_float row chunk work) as [chunk' work']. simpl in Hhit.
    by apply (convert_chunk_extends post (left - 1)%N chunk' work').
  - destruct (left =? 0)%N eqn:E; [apply N.eqb_eq in E; lia|].
    destruct (convert_row_passes c p r a r0 chunk work Hr0 Hch Hwork) as [Hch' Hwork'].
    destruct (convert_row py_int py_float r0 chunk work) as [chunk' work'].
    apply IH; [done..|]. simpl length in Hleft. lia.
Qed.

Lemma convert_chunk_skips c p r a pre rest left chunk work :
  Forall (passes_by py_int py_float c p r a) pre ->
  pending_ok c p r a chunk ->
  key_filter c p r a work = [] ->
  (left <= N.of_nat (length pre))%N ->
  exists work',
    convert_chunk py_int py_float (pre ++ rest) left chunk work =
      (drop (N.to_nat left) pre ++ rest, work') /\
    key_filter c p r a work' = [].
Proof.
  intros Hpre. revert left chunk work.
  induction Hpre as [|r0 pre Hr0 Hpre IH]; intros left chunk work Hch Hwork Hleft.
  - simpl in Hleft. assert (left = 0%N) as -> by lia. simpl.
    exists work. split; [|done]. by destruct rest.
  - simpl. destruct (left =? 0)%N eqn:E.
    + apply N.eqb_eq in E as ->. simpl. eauto.
    + apply N.eqb_neq in E.
      destruct (convert_row_passes c p r a r0 chunk work Hr0 Hch Hwork) as [Hch' Hwork'].
      destruct (convert_row py_int py_float r0 chunk work) as [chunk' work'].
      destruct (IH (left - 1)%N chunk' work' Hch' Hwork') as (work'' & Hrun & Hk).
      { simpl length in Hleft. lia. }
      exists work''. split; [|done]. rewrite Hrun. f_equal. f_equal.
      replace (N.to_nat left) with (S (N.to_nat (left - 1))) by lia. done.
Qed.

Lemma convert_rounds_reaches c p r a s rounds pre row post tbl :
  Forall (passes_by py_int py_float c p r a) pre ->
  row !! "grch38_pos" <> Some (Some ".") ->
  make_tuple py_int py_float row = Returned (Some c, p, Some r, Some a, s) ->
  fits_int64 p = true ->
  key_filter c p r a tbl = [] ->
  (N.of_nat (length pre) < N.of_nat rounds * chunk_size)%N ->
  key_filter c p r a
    (convert_rounds py_int py_float rounds (pre ++ row :: post) tbl).2 =
    [mk_row (Some c) p (Some r) (Some a) s].
Proof.
  intros Hpre Hdot Hm Hfit. revert pre tbl Hpre.
  induction rounds as [|n IH]; intros pre tbl Hpre Htbl Hlen; [lia|].
  simpl.
  destruct (decide (N.of_nat (length pre) < chunk_size)%N) as [Hnear|Hfar].
  - pose proof (convert_chunk_reaches c p r a s pre row post chunk_size [] tbl
                  Hpre Hdot Hm Hfit (Forall_nil_2 _) Htbl Hnear) as Hhit.
    destruct (convert_chunk py_int py_float (pre ++ row :: post) chunk_size [] tbl)
      as [reader' work]. simpl in Hhit.
    by apply (convert_rounds_extends n reader' work).
  - destruct (convert_chunk_skips c p r a pre (row :: post) chunk_size [] tbl
                Hpre (Forall_nil_2 _) Htbl) as (work & -> & Hwork); [lia|].
    apply IH; [by apply Forall_drop | done |].
    rewrite length_drop. lia.
Qed.

(** C4: the primary key keeps one record per key, the first one loaded.
    For [init_table]: when the load returns, a key whose first taken row is
    [row] has exactly one record, with [row]'s score, whatever rows follow
    (a second row with the key and another score among them).  For
    [prepare_revel_database] on a target that does not exist: the first row
    that carries a key, read after rows whose tuples can be bound and carry
    other keys, has its record with its own score once the loop has made
    enough passes to read it, whatever rows follow, and the table holds no
    other record of that key; at every pass of the loop the table is free
    of key conflicts, earlier records stay in place, and a key that has its
    record keeps exactly that record. *)
Theorem primary_key_first_writer_wins :
  (forall rows db_path fs fs' lg pre row post c p r a s,
     init_table py_int py_float rows db_path fs = (Returned tt, fs', lg) ->
     rows = pre ++ row :: post ->
     Forall within_bound pre ->
     Forall (fun r0 => forall t, classify r0 = Returned Take ->
               make_tuple py_int py_float r0 = Returned t ->
               key_matches c p r a (row_of_tuple t) = false) pre ->
     classify row = Returned Take ->
     make_tuple py_int py_float row = Returned (Some c, p, Some r, Some a, s) ->
     exists tbl, fs' !! db_path = Some (Some tbl) /\ pk_unique tbl /\
       key_filter c p r a tbl = [mk_row (Some c) p (Some r) (Some a) s]) /\
  (forall rounds revel_file fs pre row post c p r a s,
     fs !! (revel_file +:+ ".db") = None ->
     Forall (passes_by py_int py_float c p r a) pre ->
     row !! "grch38_pos" <> Some (Some ".") ->
     make_tuple py_int py_float row = Returned (Some c, p, Some r, Some a, s) ->
     fits_int64 p = true ->
     (N.of_nat (length pre) < N.of_nat rounds * chunk_size)%N ->
     exists tbl,
       snd (prepare_revel_database py_int py_float rounds revel_file
              (pre ++ row :: post) fs)
         !! (revel_file +:+ ".db") = Some (Some tbl) /\ pk_unique tbl /\
       key_filter c p r a tbl = [mk_row (Some c) p (Some r) (Some a) s]) /\
  (forall rounds more revel_file rows fs,
     fs !! (revel_file +:+ ".db") = None ->
     exists tbl tbl',
       snd (prepare_revel_database py_int py_float rounds revel_file rows fs)
         !! (revel_file +:+ ".db") = Some (Some tbl) /\
       snd (prepare_revel_database py_int py_float (rounds + more) revel_file rows fs)
         !! (revel_file +:+ ".db") = Some (Some tbl') /\
       pk_unique tbl /\ tbl `prefix_of` tbl' /\
       forall c p r a row0,
         key_filter c p r a tbl = [row0] -> key_filter c p r a tbl' = [row0]).
Proof.
  split; [|split].
  - intros rows db_path fs fs' lg pre row post c p r a s Hrun -> Hpre Hfirst Hcl Hm.
    pose proof (init_table_table _ db_path fs _ _ _
                  (proj1 (init_table_returned _ _ _ _ _ Hrun)) Hrun)
      as (tbl & Hfs & Hu & _).
    apply init_table_returned in Hrun as (_ & st & Hload & -> & _).
    apply (f_equal (fun m => m !! db_path)) in Hfs.
    rewrite !lookup_insert_eq in Hfs. injection Hfs as Htbl.
    eexists. split; [apply lookup_insert_eq|]. split; [by rewrite Htbl|].
    pose proof (load_rows_reaches _ _ _ _ _ Hload Hpre) as Hreach.
    rewrite (taken_app _ _ Hreach). simpl. rewrite Hcl, Hm.
    apply (apply_rows_first c p r a _ (Some c, p, Some r, Some a, s)).
    + apply Forall_forall. intros t (r0 & Hr0 & Hc0 & Hm0)%taken_contributes.
      rewrite Forall_forall in Hfirst. eauto.
    + apply key_matches_true. done.
  - intros rounds revel_file fs pre row post c p r a s Hnew Hpre Hdot Hm Hfit Hlen.
    unfold prepare_revel_database. rewrite Hnew. simpl.
    rewrite lookup_insert_eq. eexists. split; [done|]. split.
    + apply (convert_rounds_extends rounds (pre ++ row :: post) []), pk_unique_nil.
    + by apply convert_rounds_reaches.
  - intros rounds more revel_file rows fs Hnew.
    unfold prepare_revel_database. rewrite Hnew. simpl.
    rewrite !lookup_insert_eq. do 2 eexists. split; [done|]. split; [done|].
    rewrite convert_rounds_add.
    pose proof (convert_rounds_extends rounds rows []) as (_ & U & _).
    destruct (convert_rounds py_int py_float rounds rows []) as [reader tbl].
    pose proof (convert_rounds_extends more reader tbl) as (P & _ & K).
    simpl in *. split; [apply U, pk_unique_nil|]. split; [done|]. exact K.
Qed.

(** C5 (as the code has it): on a target that exists, [init_table] raises
    [FileExistsError] and leaves the database files as they are;
    [prepare_revel_database] raises nothing: it returns the target's path
    at once and leaves the database files as they are. *)
Theorem build_on_existing_target :
  (forall rows db_path db fs,
     fs !! db_path = Some db ->
     exists lg,
       init_table py_int py_float rows db_path fs = (Raised FileExistsError, fs, lg)) /\
  (forall rounds revel_file rows db fs,
     fs !! (revel_file +:+ ".db") = Some db ->
     prepare_revel_database py_int py_float rounds revel_file rows fs =
       (Some (Returned (revel_file +:+ ".db")), fs)).
Proof.
  split.
  - intros rows db_path db fs H. unfold init_table. rewrite H. eauto.
  - intros rounds revel_file rows db fs H. unfold prepare_revel_database.
    by rewrite H.
Qed.

(** C7: whatever the rows and their order, and whatever the outcome of the
    load, every record [init_table] leaves comes from a row with chromosome
    ["6"] whose position is not the placeholder: it has that row's
    reference and alternate, the integer that [int] reads in the row's
    position and the number that [float] reads in its score, so that a row
    with a position or a score that cannot be read leaves no record; a
    load of rows that all have a chromosome and a position field, with
    positions within 64 bits, returns whatever the numeric fields hold; and
    a row of chromosome 6 read before the bound is passed, whose position
    or score cannot be read, is in the log. *)
Theorem init_table_loads_only_chromosome_6 rows db_path fs res fs' lg :
  fs !! db_path = None ->
  init_table py_int py_float rows db_path fs = (res, fs', lg) ->
  exists tbl, fs' !! db_path = Some (Some tbl) /\
    (forall x, x ∈ tbl ->
       chr x = Some "6" /\
       exists row s f, row ∈ rows /\ row !! "chr" = Some (Some "6") /\
         row !! "grch38_pos" = Some (Some s) /\ s <> "." /\
         py_int s = Some (grch38_pos x) /\
         row !! "ref" = Some (ref x) /\ row !! "alt" = Some (alt x) /\
         row !! "REVEL" = Some (Some f) /\ py_float f = Some (REVEL x)) /\
    ((forall row, row ∈ rows ->
        (exists c, row !! "chr" = Some (Some c)) /\ is_Some (row !! "grch38_pos")) ->
     (forall row s z, row ∈ rows -> row !! "grch38_pos" = Some (Some s) ->
        py_int s = Some z -> fits_int64 z = true) ->
     res = Returned tt) /\
    (forall pre row post e,
       res = Returned tt -> rows = pre ++ row :: post ->
       Forall within_bound pre ->
       classify row = Returned Take ->
       make_tuple py_int py_float row = Raised e ->
       (ERROR, "Error in processing row") ∈ lg) /\
    (forall pre row post s,
       res = Returned tt -> rows = pre ++ row :: post ->
       Forall within_bound pre ->
       row !! "chr" = Some (Some "6") ->
       row !! "grch38_pos" = Some (Some s) -> s <> "." ->
       py_int s = None \/
         (exists f, row !! "REVEL" = Some (Some f) /\ py_float f = None) ->
       (ERROR, "Error in processing row") ∈ lg).
Proof.
  intros Hnew Hrun.
  destruct (init_table_table _ _ _ _ _ _ Hnew Hrun) as (tbl & -> & _ & Hsrc).
  exists tbl. split; [apply lookup_insert_eq|]. split; [|split; [|split]].
  - intros x (t & (row & Hrow & Hcl & Hm) & ->)%Hsrc.
    apply classify_take in Hcl as (Hchr & p & Hp & Hdot).
    apply make_tuple_fields in Hm as (s & f & Hc & Hs & Hint & Hr & Ha & Hf & Hx).
    rewrite Hchr in Hc. injection Hc as <-. split; [done|].
    exists row, s, f. repeat split; try done.
    intros ->. rewrite Hp in Hs. congruence.
  - intros Hfields Hfit. revert Hrun. unfold init_table. rewrite Hnew.
    destruct (load_rows_total rows 0%N (mk_load [] [] start_log))
      as (st & -> & Hch).
    + apply Forall_forall. intros row [(c & Hc) [p Hp]]%Hfields.
      unfold classify, dict_get. rewrite Hc. py_simpl. simpl field_gt. py_simpl.
      destruct (String.ltb _ c); [eauto|].
      destruct (negb _); [eauto|]. rewrite Hp. py_simpl.
      destruct (field_is p _); eauto.
    + apply Forall_forall. intros row Hrow t (s & _ & Hs & Hint)%make_tuple_returned.
      eauto.
    + constructor.
    + destruct (commit_chunk_fits _ Hch) as [st' ->]. by intros [= <- _ _].
  - intros pre row post e -> -> Hpre Hcl Hm.
    apply init_table_returned in Hrun as (_ & st & Hload & _ & ->).
    apply elem_of_app. left. eapply load_rows_logs; eauto.
  - intros pre row post s -> -> Hpre Hc Hp Hs Hbad.
    destruct (make_tuple_unreadable row s Hc Hp Hbad) as [e Hm].
    apply init_table_returned in Hrun as (_ & st & Hload & _ & ->).
    apply elem_of_app. left.
    eapply load_rows_logs; eauto using classify_six.
Qed.

End InitTable.

Section InitTableSamples.
Import Sqlite Revel.

Abbreviation key_filter c p r a := (filter (fun x => key_matches c p r a x = true)).

Lemma primary_key_first_writer_wins_witness :
  (exists tbl,
     (init_table Demo.py_int Demo.py_float Demo.revel_rows "revel.db" ∅).1.2
       !! "revel.db" = Some (Some tbl) /\
     key_filter "6" 100%Z "A" "T" tbl =
       [mk_row (Some "6") 100 (Some "A") (Some "T") Demo.score_08]) /\
  (exists tbl,
     (prepare_revel_database Demo.py_int Demo.py_float 1 "revel" Demo.revel_rows ∅).2
       !! "revel.db" = Some (Some tbl) /\
     key_filter "6" 100%Z "A" "T" tbl =
       [mk_row (Some "6") 100 (Some "A") (Some "T") Demo.score_08]).
Proof.
  split.
  - destruct (proj1 (primary_key_first_writer_wins Demo.py_int Demo.py_float)
                Demo.revel_rows "revel.db" ∅
                (init_table Demo.py_int Demo.py_float Demo.revel_rows "revel.db" ∅).1.2
                (init_table Demo.py_int Demo.py_float Demo.revel_rows "revel.db" ∅).2
                [Demo.revel_line "1" "50" "A" "C" "0.5"]
                (Demo.revel_line "6" "100" "A" "T" "0.8")
                (drop 2 Demo.revel_rows)
                "6" 100%Z "A" "T" Demo.score_08)
      as (tbl & Htbl & _ & Hkey).
    + vm_compute. reflexivity.
    + reflexivity.
    + constructor; [|constructor]. unfold within_bound. vm_compute. discriminate.
    + constructor; [|constructor]. intros t H. vm_compute in H. discriminate.
    + vm_compute. reflexivity.
    + vm_compute. reflexivity.
    + exists tbl. split; [exact Htbl | exact Hkey].
  - destruct (proj1 (proj2 (primary_key_first_writer_wins Demo.py_int Demo.py_float))
                1%nat "revel" ∅
                [Demo.revel_line "1" "50" "A" "C" "0.5"]
                (Demo.revel_line "6" "100" "A" "T" "0.8")
                (drop 2 Demo.revel_rows)
                "6" 100%Z "A" "T" Demo.score_08)
      as (tbl & Htbl & _ & Hkey).
    + reflexivity.
    + constructor; [|constructor]. intros _ t H.
      vm_compute in H. injection H as <-. split; reflexivity.
    + vm_compute. discriminate.
    + vm_compute. reflexivity.
    + reflexivity.
    + vm_compute. reflexivity.
    + exists tbl. split; [exact Htbl | exact Hkey].
Defined.

Example init_table_demo :
  (init_table Demo.py_int Demo.py_float Demo.revel_rows "revel.db" ∅).1 =
    (Returned tt, <["revel.db" := Some Demo.revel_table]> ∅).
Proof. vm_compute. reflexivity. Qed.

(** The converter on the sample rows: every chromosome is loaded, and the
    second row of the repeated key is ignored. *)
Example prepare_revel_database_demo :
  prepare_revel_database Demo.py_int Demo.py_float 2 "revel" Demo.revel_rows ∅ =
  (None,
   <["revel.db" := Some
       [ mk_row (Some "1") 50 (Some "A") (Some "C") (S754_finite false 1 (-1));
         mk_row (Some "6") 100 (Some "A") (Some "T") Demo.score_08;
         mk_row (Some "6") 200 (Some "G") (Some "C") Demo.score_03;
         mk_row (Some "7") 300 (Some "A") (Some "G") (S754_finite false 1 (-1));
         mk_row (Some "6") 400 (Some "A") (Some "G") (S754_finite false 1 (-1)) ]]> ∅).
Proof. vm_compute. reflexivity. Qed.

Lemma build_on_existing_target_witness :
  (exists lg,
     init_table Demo.py_int Demo.py_float Demo.revel_rows "revel.db"
       (<["revel.db" := Some Demo.revel_table]> ∅) =
     (Raised FileExistsError, <["revel.db" := Some Demo.revel_table]> ∅, lg)) /\
  prepare_revel_database Demo.py_int Demo.py_float 1 "revel" Demo.revel_rows
    (<["revel.db" := Some Demo.revel_table]> ∅) =
  (Some (Returned "revel.db"), <["revel.db" := Some Demo.revel_table]> ∅).
Proof.
  split.
  - apply (proj1 (build_on_existing_target Demo.py_int Demo.py_float)
             Demo.revel_rows "revel.db" (Some Demo.revel_table)).
    vm_compute. reflexivity.
  - apply (proj2 (build_on_existing_target Demo.py_int Demo.py_float)
             1%nat "revel" Demo.revel_rows (Some Demo.revel_table)).
    vm_compute. reflexivity.
Defined.

(** On an existing target [prepare_revel_database] returns the path: no
    [FileExistsError], no other exception. *)
Lemma prepare_revel_database_skips_existing :
  prepare_revel_database Demo.py_int Demo.py_float 1 "revel" Demo.revel_rows
    (<["revel.db" := Some Demo.revel_table]> ∅) =
  (Some (Returned "revel.db"), <["revel.db" := Some Demo.revel_table]> ∅) /\
  fst (prepare_revel_database Demo.py_int Demo.py_float 1 "revel" Demo.revel_rows
         (<["revel.db" := Some Demo.revel_table]> ∅)) <>
  Some (Raised FileExistsError).
Proof. split; [vm_compute; reflexivity | vm_compute; discriminate]. Qed.

Lemma init_table_loads_only_chromosome_6_witness :
  exists tbl,
    (init_table Demo.py_int Demo.py_float Demo.revel_rows "revel.db" ∅).1.2
      !! "revel.db" = Some (Some tbl) /\
    (forall x, x ∈ tbl ->
       chr x = Some "6" /\
       exists row s f, row ∈ Demo.revel_rows /\ row !! "chr" = Some (Some "6") /\
         row !! "grch38_pos" = Some (Some s) /\ s <> "." /\
         Demo.py_int s = Some (grch38_pos x) /\
         row !! "ref" = Some (ref x) /\ row !! "alt" = Some (alt x) /\
         row !! "REVEL" = Some (Some f) /\ Demo.py_float f = Some (REVEL x)) /\
    (ERROR, "Error in processing row") ∈
      (init_table Demo.py_int Demo.py_float Demo.revel_rows "revel.db" ∅).2.
Proof.
  destruct (init_table_loads_only_chromosome_6 Demo.py_int Demo.py_float
              Demo.revel_rows "revel.db" ∅ (Returned tt)
              (init_table Demo.py_int Demo.py_float Demo.revel_rows "revel.db" ∅).1.2
              (init_table Demo.py_int Demo.py_float Demo.revel_rows "revel.db" ∅).2)
    as (tbl & Htbl & Hsix & _ & _ & Hlog).
  - vm_compute. reflexivity.
  - vm_compute. reflexivity.
  - exists tbl. split; [exact Htbl|]. split; [exact Hsix|].
    apply (Hlog (take 2 Demo.revel_rows) (Demo.revel_line "6" "1e3" "A" "T" "0.5")
             (drop 3 Demo.revel_rows) "1e3").
    + reflexivity.
    + reflexivity.
    + unfold within_bound.
      repeat constructor; vm_compute; discriminate.
    + reflexivity.
    + reflexivity.
    + discriminate.
    + left. reflexivity.
Defined.

(** A row of chromosome 6 whose score [float] cannot read is skipped and
    logged: the load returns, and the table has the other row only. *)
Example init_table_unreadable_score :
  init_table Demo.py_int Demo.py_float
    [ Demo.revel_line "6" "100" "A" "T" "not-a-number";
      Demo.revel_line "6" "200" "G" "C" "0.3" ] "revel.db" ∅ =
  (Returned tt,
   <["revel.db" := Some [mk_row (Some "6") 200 (Some "G") (Some "C") Demo.score_03]]> ∅,
   start_log ++ [(ERROR, "Error in processing row")] ++ end_log).
Proof. vm_compute. reflexivity. Qed.

End InitTableSamples.

(** ** [get_single_revel_score] *)

Section Lookup.
Import Sqlite Revel.

Variable py_int : string -> option Z.
Variable py_float : string -> option spec_float.
Variable sql_numeric : string -> option Z.

Lemma text_column_eq_text col s : text_column_eq col (PText s) = true <-> col = Some s.
Proof.
  unfold text_column_eq. rewrite text_eq_true. split.
  - by intros (x & -> & [= ->]).
  - intros ->. eauto.
Qed.

(** A text position is compared as the integer it reads as. *)
Lemma int_column_eq_text col s z :
  sql_numeric s = Some z ->
  int_column_eq sql_numeric col (PText s) = int_column_eq sql_numeric col (PInt z).
Proof. intros H. simpl. by rewrite H. Qed.

Lemma where_key_int c p r a row :
  where_key sql_numeric (PText c) (PInt p) (PText r) (PText a) row =
    key_matches c p r a row.
Proof. reflexivity. Qed.

Lemma find_pointwise {A} (f g : A -> bool) (l : list A) :
  (forall x, f x = g x) -> find f l = find g l.
Proof. intros H. induction l as [|x l IH]; simpl; [done|]. by rewrite H, IH. Qed.

Lemma fetchone_hit c p r a tbl row :
  pk_unique tbl -> row ∈ tbl -> key_matches c p r a row = true ->
  fetchone sql_numeric (PText c) (PInt p) (PText r) (PText a) tbl = Some row.
Proof.
  intros Hu Hin Hk. unfold fetchone.
  destruct (find _ tbl) as [row'|] eqn:Hf.
  - apply find_some in Hf as [Hin' Hk']. rewrite where_key_int in Hk'.
    apply list_elem_of_In, list_elem_of_lookup in Hin' as [i Hi].
    apply list_elem_of_lookup in Hin as [j Hj].
    assert (i = j) as ->
      by (eapply Hu; eauto using key_matches_conflict).
    congruence.
  - eapply find_none in Hf; [|by apply list_elem_of_In].
    rewrite where_key_int in Hf. congruence.
Qed.

Lemma fetchone_miss c p r a tbl :
  (forall row, row ∈ tbl -> key_matches c p r a row = false) ->
  fetchone sql_numeric (PText c) (PInt p) (PText r) (PText a) tbl = None.
Proof.
  intros H. unfold fetchone. destruct (find _ tbl) as [row'|] eqn:Hf; [|done].
  apply find_some in Hf as [Hin' Hk']. rewrite where_key_int in Hk'.
  apply list_elem_of_In, H in Hin'. congruence.
Qed.

(** C6: on the store [init_table] leaves, looking up the four fields of a
    record returns that record's score; looking up four fields that no
    record has returns [pd.NA]; a position given as text is looked up as
    the integer it reads as; and a lookup changes nothing, so that
    repeating it gives the same result. *)
Theorem lookup_round_trip rows db_path fs res fs' lg :
  fs !! db_path = None ->
  init_table py_int py_float rows db_path fs = (res, fs', lg) ->
  exists tbl, fs' !! db_path = Some (Some tbl) /\
    (forall row c r a,
       row ∈ tbl -> chr row = Some c -> ref row = Some r -> alt row = Some a ->
       get_single_revel_score sql_numeric
         (PText c) (PInt (grch38_pos row)) (PText r) (PText a) db_path fs' =
       (Returned (real_out (REVEL row)), fs')) /\
    (forall c p r a,
       (forall row, row ∈ tbl ->
          ~ (chr row = Some c /\ grch38_pos row = p /\
             ref row = Some r /\ alt row = Some a)) ->
       get_single_revel_score sql_numeric
         (PText c) (PInt p) (PText r) (PText a) db_path fs' =
       (Returned PyNA, fs')) /\
    (forall c s z r a,
       sql_numeric s = Some z ->
       get_single_revel_score sql_numeric
         (PText c) (PText s) (PText r) (PText a) db_path fs' =
       get_single_revel_score sql_numeric
         (PText c) (PInt z) (PText r) (PText a) db_path fs') /\
    (forall pc pp pr pa out fs1,
       get_single_revel_score sql_numeric pc pp pr pa db_path fs' = (out, fs1) ->
       fs1 = fs' /\
       get_single_revel_score sql_numeric pc pp pr pa db_path fs1 = (out, fs1)).
Proof.
  intros Hnew Hrun.
  destruct (init_table_table _ _ _ _ _ _ _ _ Hnew Hrun) as (tbl & -> & Hu & _).
  exists tbl. split; [apply lookup_insert_eq|].
  unfold get_single_revel_score. rewrite lookup_insert_eq.
  split; [|split; [|split]].
  - intros row c r a Hin Hc Hr Ha.
    rewrite (fetchone_hit c (grch38_pos row) r a tbl row); [done..|].
    by apply key_matches_true.
  - intros c p r a Hnone. rewrite fetchone_miss; [done|].
    intros row Hin. apply not_true_is_false. intros Hk%key_matches_true.
    by apply (Hnone row).
  - intros c s z r a Hs. unfold fetchone.
    rewrite (find_pointwise
               (where_key sql_numeric (PText c) (PText s) (PText r) (PText a))
               (where_key sql_numeric (PText c) (PInt z) (PText r) (PText a)));
      [done|].
    intros row. unfold where_key. by rewrite (int_column_eq_text _ s z Hs).
  - intros pc pp pr pa out fs1 H.
    assert (fs1 = <[db_path:=Some tbl]> fs) as ->
      by (destruct (fetchone sql_numeric pc pp pr pa tbl); by injection H as <- <-).
    by rewrite lookup_insert_eq.
Qed.

End Lookup.

Section LookupSamples.
Import Sqlite Revel.

Lemma lookup_round_trip_witness :
  let fs' := <["revel.db" := Some Demo.revel_table]> (∅ : gmap string database) in
  get_single_revel_score Demo.sql_numeric
    (PText "6") (PInt 100) (PText "A") (PText "T") "revel.db" fs' =
    (Returned (PyFloat Demo.score_08), fs') /\
  get_single_revel_score Demo.sql_numeric
    (PText "7") (PInt 300) (PText "A") (PText "G") "revel.db" fs' =
    (Returned PyNA, fs').
Proof.
  intros fs'.
  destruct (lookup_round_trip Demo.py_int Demo.py_float Demo.sql_numeric
              Demo.revel_rows "revel.db" ∅ (Returned tt) fs'
              (start_log ++ [(ERROR, "Error in processing row")] ++ end_log))
    as (tbl & Htbl & Hhit & Hmiss & _).
  - vm_compute. reflexivity.
  - vm_compute. reflexivity.
  - assert (tbl = Demo.revel_table) as ->.
    { unfold fs' in Htbl. rewrite lookup_insert_eq in Htbl. congruence. }
    split.
    + apply (Hhit (mk_row (Some "6") 100 (Some "A") (Some "T") Demo.score_08)
               "6" "A" "T"); [constructor | reflexivity..].
    + apply Hmiss. intros row Hrow (Hc & _).
      unfold Demo.revel_table in Hrow.
      repeat (apply elem_of_cons in Hrow as [->|Hrow]; [discriminate|]).
      by apply not_elem_of_nil in Hrow.
Defined.

End LookupSamples.

(** ** Reading and writing cells of a dataframe *)

Section Cells.
Import Pandas.

Lemma positions_spec name cols from j :
  j ∈ positions name cols from <->
  (from <= j)%nat /\ cols !! (j - from)%nat = Some name.
Proof.
  revert from. induction cols as [|c cols IH]; intros from; simpl.
  - split; [by intros ?%not_elem_of_nil | by intros [_ ?]].
  - destruct (String.eqb_spec c name) as [->|Hne].
    + rewrite elem_of_cons, IH. split.
      * intros [->|[Hle Hj]].
        -- split; [lia|]. by replace (from - from)%nat with 0%nat by lia.
        -- split; [lia|]. by replace (j - from)%nat with (S (j - S from)) by lia.
      * intros [Hle Hj]. destruct (decide (j = from)) as [->|Hjf]; [by left|].
        right. split; [lia|].
        by replace (j - from)%nat with (S (j - S from)) in Hj by lia.
    + rewrite IH. split.
      * intros [Hle Hj]. split; [lia|].
        by replace (j - from)%nat with (S (j - S from)) by lia.
      * intros [Hle Hj]. destruct (decide (j = from)) as [->|Hjf].
        -- replace (from - from)%nat with 0%nat in Hj by lia. simpl in Hj. congruence.
        -- split; [lia|].
           by replace (j - from)%nat with (S (j - S from)) in Hj by lia.
Qed.

Lemma positions_app name cols more from :
  positions name (cols ++ more) from =
    positions name cols from ++ positions name more (from + length cols).
Proof.
  revert from. induction cols as [|c cols IH]; intros from; simpl.
  - by rewrite Nat.add_0_r.
  - rewrite IH. replace (S from + length cols)%nat with (from + S (length cols))%nat by lia.
    by destruct (String.eqb c name).
Qed.

Lemma positions_lookup name cols j :
  j ∈ positions name cols 0 -> cols !! j = Some name.
Proof. intros [_ H]%positions_spec. by rewrite Nat.sub_0_r in H. Qed.

Lemma write_cells_length cols row name v :
  length (write_cells cols row name v) = length row.
Proof.
  revert row. induction cols as [|c cols IH]; intros [|x row]; simpl; auto.
Qed.

Lemma write_cells_hit cols row name v j :
  cols !! j = Some name -> (j < length row)%nat ->
  write_cells cols row name v !! j = Some v.
Proof.
  revert row j. induction cols as [|c cols IH]; intros [|x row] [|j]; simpl;
    try done; try lia.
  - intros [= ->] _. by rewrite String.eqb_refl.
  - intros H Hlt. apply IH; [done | lia].
Qed.

Lemma write_cells_miss cols row name v j :
  cols !! j <> Some name -> write_cells cols row name v !! j = row !! j.
Proof.
  revert row j. induction cols as [|c cols IH]; intros [|x row] [|j]; simpl;
    try done.
  - intros H. destruct (String.eqb_spec c name) as [->|]; [done | done].
  - intros H. by apply IH.
Qed.

Lemma loc_set_nrows df i name v : nrows (loc_set df i name v) = nrows df.
Proof.
  unfold loc_set, nrows. destruct (positions name (columns df) 0); simpl.
  - by rewrite length_imap.
  - by rewrite length_alter.
Qed.

Lemma loc_set_wf df i name v : well_formed df -> well_formed (loc_set df i name v).
Proof.
  unfold well_formed, loc_set. intros Hwf.
  destruct (positions name (columns df) 0); simpl.
  - apply Forall_lookup. intros k row' Hk.
    apply list_lookup_imap_Some in Hk as (row & Hrow & ->).
    rewrite !length_app. simpl. f_equal.
    by apply (Forall_lookup_1 _ _ _ _ Hwf Hrow).
  - apply Forall_alter; [done|]. intros row Hrow. by rewrite write_cells_length.
Qed.

(** After the write the label is carried by exactly one column if it was
    carried by at most one. *)
Lemma loc_set_positions df i name v :
  (length (positions name (columns df) 0) <= 1)%nat ->
  exists j, positions name (columns (loc_set df i name v)) 0 = [j].
Proof.
  unfold loc_set. destruct (positions name (columns df) 0) as [|j [|j' l]] eqn:E;
    simpl; intros Hlen; [| |lia].
  - rewrite positions_app, E. simpl. rewrite String.eqb_refl. eauto.
  - rewrite E. eauto.
Qed.

(** The cell just written reads back. *)
Lemma loc_set_same df i name v :
  well_formed df -> (i < nrows df)%nat ->
  (length (positions name (columns df) 0) <= 1)%nat ->
  loc_get (loc_set df i name v) i name = Returned v.
Proof.
  intros Hwf Hi Hlen. apply lookup_lt_is_Some in Hi as [row Hrow].
  pose proof (Forall_lookup_1 _ _ _ _ Hwf Hrow) as Hwidth. simpl in Hwidth.
  unfold loc_get, loc_set, scalar_at.
  destruct (positions name (columns df) 0) as [|j [|j' l]] eqn:E;
    simpl in *; [| |lia].
  - rewrite list_lookup_imap, Hrow. simpl.
    rewrite positions_app, E. simpl. rewrite String.eqb_refl. simpl.
    rewrite Nat.eqb_refl, lookup_app_r by lia.
    by rewrite <- Hwidth, Nat.sub_diag.
  - rewrite list_lookup_alter_eq, Hrow. simpl. rewrite E.
    assert (Hj : j ∈ positions name (columns df) 0) by (rewrite E; constructor).
    pose proof (positions_lookup _ _ _ Hj) as Hcol.
    rewrite (write_cells_hit _ _ _ _ _ Hcol); [done|].
    rewrite Hwidth. by apply lookup_lt_Some in Hcol.
Qed.

(** Writing a label that exists leaves the other rows alone. *)
Lemma loc_set_other_row df i k name name' v :
  k <> i -> positions name (columns df) 0 <> [] ->
  loc_get (loc_set df i name v) k name' = loc_get df k name'.
Proof.
  intros Hk Hex. unfold loc_get, loc_set.
  destruct (positions name (columns df) 0); [done|]. simpl.
  by rewrite list_lookup_alter_ne.
Qed.

(** Writing a label leaves the cells under the other labels alone. *)
Lemma loc_set_other_label df i k name name' v :
  well_formed df -> name' <> name ->
  loc_get (loc_set df i name v) k name' = loc_get df k name'.
Proof.
  intros Hwf Hne. unfold loc_get, loc_set, scalar_at.
  destruct (positions name (columns df) 0) as [|j0 l0] eqn:E; simpl.
  - rewrite list_lookup_imap. destruct (rows df !! k) as [row|] eqn:Hrow; [|done].
    simpl. rewrite positions_app. simpl.
    destruct (String.eqb_spec name name') as [->|_]; [done|]. rewrite app_nil_r.
    destruct (positions name' (columns df) 0) as [|j [|j' l]] eqn:E'; [done| |done].
    assert (Hj : j ∈ positions name' (columns df) 0) by (rewrite E'; constructor).
    apply positions_lookup, lookup_lt_Some in Hj.
    pose proof (Forall_lookup_1 _ _ _ _ Hwf Hrow) as Hwidth. simpl in Hwidth.
    by rewrite lookup_app_l by lia.
  - destruct (decide (k = i)) as [->|Hk]; [|by rewrite list_lookup_alter_ne].
    rewrite list_lookup_alter_eq. destruct (rows df !! i) as [row|] eqn:Hrow; [|done].
    simpl.
    destruct (positions name' (columns df) 0) as [|j [|j' l]] eqn:E'; [done| |done].
    assert (Hj : j ∈ positions name' (columns df) 0) by (rewrite E'; constructor).
    apply positions_lookup in Hj.
    rewrite write_cells_miss; [done|]. congruence.
Qed.

Lemma loc_set_other_positions df i name name' v :
  name' <> name ->
  positions name' (columns (loc_set df i name v)) 0 = positions name' (columns df) 0.
Proof.
  intros Hne. unfold loc_set.
  destruct (positions name (columns df) 0); simpl; [|done].
  rewrite positions_app. simpl.
  destruct (String.eqb_spec name name') as [->|_]; [done|]. by rewrite app_nil_r.
Qed.

End Cells.

(** ** [assign_revel_scores] *)

Section AssignRevelScores.
Import Sqlite Revel Pandas.

Variable sql_numeric : string -> option Z.

Lemma get_single_same_answers c p r a path fs :
  same_answers sql_numeric path fs
    (snd (get_single_revel_score sql_numeric c p r a path fs)).
Proof.
  intros c' p' r' a'. unfold get_single_revel_score.
  destruct (fs !! path) as [[tbl|]|] eqn:E; simpl.
  - destruct (fetchone sql_numeric c p r a tbl); simpl; by rewrite E.
  - by rewrite E.
  - by rewrite lookup_insert_eq.
Qed.

Lemma same_answers_refl path fs : same_answers sql_numeric path fs fs.
Proof. by intros c p r a. Qed.

Lemma same_answers_cell path fs fs' v :
  same_answers sql_numeric path fs fs' ->
  revel_cell sql_numeric path fs' v = revel_cell sql_numeric path fs v.
Proof.
  intros H. unfold revel_cell. destruct (isna v); [done|].
  destruct (split_variant v) as [[[[c p] r] a]|]; [|done]. by rewrite H.
Qed.

(** A row whose identifier can be read is given its cell, and the loop
    goes on. *)
Lemma assign_row_cell path i df fs lg v :
  loc_get df i "hg38_gnomad_format" = Returned v ->
  exists fs' lg',
    assign_row sql_numeric path i df fs lg =
      (None, loc_set df i "REVEL" (revel_cell sql_numeric path fs v), fs', lg') /\
    same_answers sql_numeric path fs fs'.
Proof.
  intros Hv. unfold assign_row, revel_cell. rewrite Hv.
  destruct (isna v); [exists fs, lg; split; [done | apply same_answers_refl]|].
  destruct (split_variant v) as [[[[c p] r] a]|e].
  - pose proof (get_single_same_answers (PText c) (PText p) (PText r) (PText a) path fs)
      as Hsame.
    destruct (get_single_revel_score sql_numeric (PText c) (PText p) (PText r)
                (PText a) path fs) as [[x|e] fs'] eqn:Hq; simpl in *.
    + eauto.
    + destruct e; eauto.
  - destruct e; (eexists _, _; split; [reflexivity | apply same_answers_refl]).
Qed.

Lemma loc_get_readable df i name j :
  positions name (columns df) 0 = [j] -> (i < nrows df)%nat ->
  exists v, loc_get df i name = Returned v.
Proof.
  intros Hpos [row Hrow]%lookup_lt_is_Some.
  unfold loc_get, scalar_at. rewrite Hrow, Hpos. eauto.
Qed.

Lemma loc_get_lt df i name v : loc_get df i name = Returned v -> (i < nrows df)%nat.
Proof.
  unfold loc_get. destruct (rows df !! i) eqn:E; [|discriminate].
  intros _. by apply lookup_lt_Some in E.
Qed.

(** The loop over the rows [k .. k+n-1]: it ends without an exception,
    writes each of these rows its cell and leaves everything else. *)
Lemma assign_rows_cells path n k df fs lg j :
  well_formed df -> (k + n = nrows df)%nat ->
  positions "hg38_gnomad_format" (columns df) 0 = [j] ->
  (length (positions "REVEL" (columns df) 0) <= 1)%nat ->
  exists df' fs' lg',
    assign_rows sql_numeric path (seq k n) df fs lg = (None, df', fs', lg') /\
    well_formed df' /\ nrows df' = nrows df /\
    same_answers sql_numeric path fs fs' /\
    (forall i name, name <> "REVEL" -> loc_get df' i name = loc_get df i name) /\
    (forall i v, (k <= i)%nat -> loc_get df i "hg38_gnomad_format" = Returned v ->
       loc_get df' i "REVEL" = Returned (revel_cell sql_numeric path fs v)) /\
    (forall i, (i < k)%nat -> positions "REVEL" (columns df) 0 <> [] ->
       loc_get df' i "REVEL" = loc_get df i "REVEL").
Proof.
  revert k df fs lg j. induction n as [|n IH]; intros k df fs lg j Hwf Hkn Hg Hr.
  - simpl. exists df, fs, lg. repeat split; try done.
    intros i v Hi Hv%loc_get_lt. lia.
  - simpl.
    destruct (loc_get_readable df k _ j Hg) as [v Hv]; [lia|].
    destruct (assign_row_cell path k df fs lg v Hv) as (fs1 & lg1 & -> & Hsame1).
    set (df1 := loc_set df k "REVEL" (revel_cell sql_numeric path fs v)).
    assert (Hne : "hg38_gnomad_format" <> "REVEL") by discriminate.
    destruct (loc_set_positions df k "REVEL" (revel_cell sql_numeric path fs v) Hr)
      as [jr Hjr]. fold df1 in Hjr.
    destruct (IH (S k) df1 fs1 lg1 j) as (df' & fs' & lg' & Hrun & Hwf' & Hn' & Hsame' & Hoth & Hnew & Hold).
    + by apply loc_set_wf.
    + unfold df1. rewrite loc_set_nrows. lia.
    + unfold df1. by rewrite loc_set_other_positions.
    + by rewrite Hjr.
    + exists df', fs', lg'. split; [exact Hrun|]. split; [done|].
      split; [by rewrite Hn'; apply loc_set_nrows|].
      split; [intros c p r a; by rewrite Hsame', Hsame1|].
      split; [|split].
      * intros i name Hname. rewrite Hoth by done. by apply loc_set_other_label.
      * intros i v' Hi Hv'. destruct (decide (i = k)) as [->|Hik].
        -- rewrite Hold; [|lia|by rewrite Hjr].
           assert (v' = v) as -> by congruence.
           apply loc_set_same; [done | lia | done].
        -- rewrite (Hnew i v'); [|lia|].
           ++ f_equal. by apply same_answers_cell.
           ++ unfold df1. by rewrite loc_set_other_label.
      * intros i Hi Hex. rewrite Hold; [|lia|by rewrite Hjr].
        apply loc_set_other_row; [lia | done].
Qed.

(** C10: on a frame that has its identifier column, the batch never
    aborts and keeps the number of rows and every other column; a row
    whose identifier is NA gets [pd.NA]; so does a row whose identifier
    does not split into four parts, and a row whose lookup raises; any
    other row gets what its lookup returns. *)
Theorem assign_revel_scores_row_by_row df path fs j :
  well_formed df ->
  positions "hg38_gnomad_format" (columns df) 0 = [j] ->
  (length (positions "REVEL" (columns df) 0) <= 1)%nat ->
  exists df' fs' lg,
    assign_revel_scores sql_numeric df path fs = (None, df', fs', lg) /\
    nrows df' = nrows df /\
    (forall i name, name <> "REVEL" -> loc_get df' i name = loc_get df i name) /\
    (forall i v, loc_get df i "hg38_gnomad_format" = Returned v ->
       (isna v = true -> loc_get df' i "REVEL" = Returned PyNA) /\
       (isna v = false -> forall e, split_variant v = Raised e ->
          loc_get df' i "REVEL" = Returned PyNA) /\
       (isna v = false -> forall c p r a e,
          split_variant v = Returned (c, p, r, a) ->
          fst (get_single_revel_score sql_numeric (PText c) (PText p) (PText r)
                 (PText a) path fs) = Raised e ->
          loc_get df' i "REVEL" = Returned PyNA) /\
       (isna v = false -> forall c p r a x,
          split_variant v = Returned (c, p, r, a) ->
          fst (get_single_revel_score sql_numeric (PText c) (PText p) (PText r)
                 (PText a) path fs) = Returned x ->
          loc_get df' i "REVEL" = Returned x)).
Proof.
  intros Hwf Hg Hr.
  destruct (assign_rows_cells path (nrows df) 0 df fs
              [(INFO, "Starting REVEL score assignment")] j Hwf eq_refl Hg Hr)
    as (df' & fs' & lg' & Hrun & _ & Hn & _ & Hoth & Hnew & _).
  unfold assign_revel_scores. rewrite Hrun.
  eexists _, _, _. split; [reflexivity|]. split; [done|]. split; [done|].
  intros i v Hv. rewrite (Hnew i v) by (done || lia). unfold revel_cell.
  split; [|split; [|split]].
  - by intros ->.
  - intros -> e ->. done.
  - intros -> c p r a e -> ->. done.
  - intros -> c p r a x -> ->. done.
Qed.

End AssignRevelScores.

(** ** [download_cadd_scores] *)

Section Download.
Import Cadd.

(** What the [finally] clause makes of a session in which neither the
    finished link nor the status link shows up: the [TimeoutException]
    raised for the missing status link is discarded by [return job_id],
    and reading the unassigned [job_id] raises [UnboundLocalError]. *)
Lemma download_cadd_scores_unresolvable fuel web download_dir vcf files e :
  finished_link web = Raised e ->
  check_avail_link web = Raised TimeoutException ->
  download_cadd_scores fuel web download_dir vcf files =
    Some (Raised UnboundLocalError, files).
Proof.
  intros Hfin Hchk. unfold download_cadd_scores, submit_and_wait, await_job.
  destruct (_ ← score_page web; _ ← file_input web; _ ← submit web; upload_page web);
    [|reflexivity].
  by rewrite Hfin, Hchk.
Qed.

(** C8 on the code: with neither link found within the two waits the call
    ends at once, whatever the number of polling rounds allowed, and what
    reaches the caller is [UnboundLocalError], not the [TimeoutException]
    that the function raises and documents for this case. *)
Theorem download_cadd_scores_loses_timeout :
  (forall fuel,
     download_cadd_scores fuel Demo.session_unresolvable "ws/cadd"
       "ws/cadd/cadd.vcf.gz" ∅ = Some (Raised UnboundLocalError, ∅)) /\
  (forall fuel,
     download_cadd_scores fuel Demo.session_unresolvable "ws/cadd"
       "ws/cadd/cadd.vcf.gz" ∅ <> Some (Raised TimeoutException, ∅)).
Proof.
  split; intros fuel;
    rewrite (download_cadd_scores_unresolvable fuel Demo.session_unresolvable
               "ws/cadd" "ws/cadd/cadd.vcf.gz" ∅ TimeoutException eq_refl eq_refl);
    [done | discriminate].
Qed.

(** Once [job_id] is assigned, an exception on its way out of the [try]
    is discarded and the call returns the identifier. *)
Example download_cadd_scores_swallows :
  download_cadd_scores 1
    (mk_session (Returned tt) (Returned tt) (Returned tt) (Returned tt)
       (Returned Demo.job_href) (Raised WebDriverException)
       (Raised TimeoutException) (Returned tt)
       (fun _ => Returned tt) (fun _ => Raised TimeoutException)
       (fun _ => Returned tt) [])
    "ws/cadd" "ws/cadd/cadd.vcf.gz" ∅ =
  Some (Returned (Some "_0123456789abcdef0123456789abcdef"), ∅).
Proof. vm_compute. reflexivity. Qed.

(** A queued job is polled until its link shows up; with too few rounds
    allowed the loop is still running. *)
Example download_cadd_scores_polls :
  (exists files,
     download_cadd_scores 3 Demo.session_queued "ws/cadd" "ws/cadd/cadd.vcf.gz" ∅ =
     Some (Returned (Some "_0123456789abcdef0123456789abcdef"), files)) /\
  download_cadd_scores 2 Demo.session_queued "ws/cadd" "ws/cadd/cadd.vcf.gz" ∅ = None.
Proof. split; [eexists|]; vm_compute; reflexivity. Qed.

End Download.

(** ** [cadd_pipeline] *)

Section CaddPipeline.
Import Cadd Pandas.

(** *** Files the download leaves alone *)

Lemma append_assoc (a b c : string) : (a +:+ b) +:+ c = a +:+ (b +:+ c).
Proof.
  induction a as [|ch a IH]; [reflexivity|].
  change (String ch ((a +:+ b) +:+ c) = String ch (a +:+ (b +:+ c))).
  by rewrite IH.
Qed.

Lemma length_append (a b : string) :
  String.length (a +:+ b) = (String.length a + String.length b)%nat.
Proof.
  induction a as [|ch a IH]; [reflexivity|].
  change (S (String.length (a +:+ b)) = S (String.length a + String.length b)).
  by rewrite IH.
Qed.

Lemma substring_prefix (a b : string) :
  String.substring 0 (String.length a) (a +:+ b) = a.
Proof.
  induction a as [|ch a IH]; [by destruct b|].
  change (String ch (String.substring 0 (String.length a) (a +:+ b)) = String ch a).
  by rewrite IH.
Qed.

Lemma drop_last3_gz (path : string) : drop_last3 (path +:+ ".gz") = path.
Proof.
  unfold drop_last3. rewrite length_append.
  change (String.length ".gz") with 3%nat.
  replace (String.length path + 3 - 3)%nat with (String.length path) by lia.
  apply substring_prefix.
Qed.

Lemma path_join_gz (a : string) (c : ascii) (b : string) :
  path_join a (String c b +:+ ".gz") = path_join a (String c b) +:+ ".gz".
Proof.
  unfold path_join.
  change (startswith (String c b +:+ ".gz") "/") with (startswith (String c b) "/").
  destruct (startswith (String c b) "/"); [done|].
  destruct a as [|ch a]; [done|].
  destruct (String.eqb _ _); by rewrite ?append_assoc.
Qed.

(** Unpacking a saved result file writes a download name again. *)
Lemma gunzip_download_name download_dir job :
  download_name download_dir
    (drop_last3 (path_join download_dir ("GRCh38-v1.7" +:+ job +:+ ".tsv.gz"))).
Proof.
  exists (job +:+ ".tsv").
  change ("GRCh38-v1.7" +:+ job +:+ ".tsv.gz")
    with (String "G" ("RCh38-v1.7" +:+ (job +:+ (".tsv" +:+ ".gz")))).
  rewrite <- (append_assoc job), <- (append_assoc "RCh38-v1.7").
  change (String "G" (("RCh38-v1.7" +:+ job +:+ ".tsv") +:+ ".gz"))
    with (String "G" ("RCh38-v1.7" +:+ job +:+ ".tsv") +:+ ".gz").
  by rewrite path_join_gz, drop_last3_gz.
Qed.

Lemma save_download_other web download_dir job_id files path :
  ~ download_name download_dir path ->
  save_download web download_dir job_id files !! path = files !! path.
Proof.
  intros Hp. destruct job_id as [id|]; simpl; [|done].
  apply lookup_insert_ne. intros <-. apply Hp. by eexists.
Qed.

Lemma poll_rounds_other fuel web download_dir k job_id files e job_id' files' path :
  poll_rounds fuel web download_dir k job_id files = Some (e, job_id', files') ->
  ~ download_name download_dir path ->
  files' !! path = files !! path.
Proof.
  intros Hrun Hp. revert k job_id Hrun.
  induction fuel as [|fuel IH]; intros k job_id; simpl; [discriminate|].
  destruct (refresh web k); [|by intros [= _ _ <-]].
  destruct (poll_link web k) as [href|]; [|by apply IH].
  destruct (poll_click web k); [|by apply IH].
  intros [= _ _ <-]. by apply save_download_other.
Qed.

Lemma await_job_other fuel web download_dir job_id files e job_id' files' path :
  await_job fuel web download_dir job_id files = Some (e, job_id', files') ->
  ~ download_name download_dir path ->
  files' !! path = files !! path.
Proof.
  unfold await_job. destruct (check_avail_link web) as [url|e0].
  - destruct (job_page web); [apply poll_rounds_other | by intros [= _ _ <-]].
  - destruct e0; by intros [= _ _ <-].
Qed.

Lemma download_cadd_scores_other fuel web download_dir vcf files out files' path :
  download_cadd_scores fuel web download_dir vcf files = Some (out, files') ->
  ~ download_name download_dir path ->
  files' !! path = files !! path.
Proof.
  unfold download_cadd_scores.
  destruct (submit_and_wait fuel web download_dir files)
    as [[[e job_id] files1]|] eqn:Hrun; [|discriminate].
  intros Hout Hp.
  assert (files1 !! path = files !! path) as <-.
  { revert Hrun. unfold submit_and_wait.
    destruct (_ ← score_page web; _ ← file_input web; _ ← submit web; upload_page web);
      [|by intros [= _ _ <-]].
    destruct (finished_link web) as [href|]; [|intros H; eapply await_job_other; eauto].
    destruct (finished_click web); [|intros H; eapply await_job_other; eauto].
    intros [= _ _ <-]. by apply save_download_other. }
  by destruct job_id; injection Hout as _ <-.
Qed.

(** Fetching the scores touches download names only. *)
Lemma get_cadd_scores_file_other fuel web file_path files out files' path :
  get_cadd_scores_file fuel web file_path files = Some (out, files') ->
  ~ download_name (dirname file_path) path ->
  files' !! path = files !! path.
Proof.
  unfold get_cadd_scores_file. intros Hrun Hp.
  destruct (makedirs (dirname file_path)); [|by injection Hrun as _ <-].
  destruct (download_cadd_scores fuel web (dirname file_path) file_path files)
    as [[[job_id|e] files1]|] eqn:Hd; [| |discriminate].
  - rewrite <- (download_cadd_scores_other _ _ _ _ _ _ _ _ Hd Hp).
    assert (Hgun : drop_last3 (path_join (dirname file_path)
                     ("GRCh38-v1.7" +:+ str_of_job_id job_id +:+ ".tsv.gz")) <> path)
      by (intros <-; apply Hp, gunzip_download_name).
    assert (Hgz : path_join (dirname file_path)
                    ("GRCh38-v1.7" +:+ str_of_job_id job_id +:+ ".tsv.gz") <> path)
      by (intros <-; apply Hp; by eexists).
    unfold gunzip_file, remove in Hrun.
    destruct (files1 !! _) as [lines|]; [|by injection Hrun as _ <-].
    destruct (<[_ := lines]> files1 !! _); injection Hrun as _ <-.
    + by rewrite lookup_delete_ne, lookup_insert_ne.
    + by rewrite lookup_insert_ne.
  - injection Hrun as _ <-. by eapply download_cadd_scores_other.
Qed.

(** *** The lines of the written file *)

Lemma free_of_append c a b : free_of c (a +:+ b) = free_of c a && free_of c b.
Proof.
  induction a as [|d a IH]; [reflexivity|].
  change (String d a +:+ b) with (String d (a +:+ b)). simpl.
  by rewrite IH, andb_assoc.
Qed.

Lemma one_line_append a b : one_line (a +:+ b) = one_line a && one_line b.
Proof.
  unfold one_line. rewrite !free_of_append.
  destruct (free_of line_feed a), (free_of line_feed b),
    (free_of carriage_return a), (free_of carriage_return b); reflexivity.
Qed.

Lemma append_empty_r (a : string) : a +:+ EmptyString = a.
Proof.
  induction a as [|c a IH]; [reflexivity|].
  change (String c (a +:+ EmptyString) = String c a). by rewrite IH.
Qed.

(** Reading up to the end of a line without a break inside. *)
Lemma lines_after_line cur body rest :
  one_line body = true ->
  lines_after cur (body +:+ String line_feed rest) =
    (cur +:+ body +:+ String line_feed EmptyString) :: lines_after EmptyString rest.
Proof.
  revert cur. induction body as [|c body IH]; intros cur Hb.
  - change (EmptyString +:+ String line_feed rest) with (String line_feed rest).
    reflexivity.
  - unfold one_line in Hb. simpl in Hb.
    apply andb_true_iff in Hb as [[Hlf Hb1]%andb_true_iff [Hcr Hb2]%andb_true_iff].
    apply negb_true_iff in Hlf, Hcr.
    change (String c body +:+ String line_feed rest)
      with (String c (body +:+ String line_feed rest)).
    cbn [lines_after]. rewrite Hlf, Hcr.
    rewrite IH by (unfold one_line; by rewrite Hb1, Hb2).
    by rewrite append_assoc.
Qed.

(** Strings that are one line each are the lines of the file they are
    written to. *)
Lemma file_lines_written (written : list string) :
  Forall (fun l => exists body,
            l = body +:+ String line_feed EmptyString /\ one_line body = true) written ->
  file_lines written = written.
Proof.
  unfold file_lines. induction 1 as [|l ls (body & -> & Hb) _ IH]; [reflexivity|].
  simpl. rewrite append_assoc.
  change (String line_feed EmptyString +:+ foldr String.append EmptyString ls)
    with (String line_feed (foldr String.append EmptyString ls)).
  rewrite lines_after_line by done. by rewrite IH.
Qed.

Lemma vcf_line_of_one_line cols row line :
  row_one_line cols row = true -> vcf_line_of cols row = Returned line ->
  exists body, line = body +:+ String line_feed EmptyString /\ one_line body = true.
Proof.
  unfold row_one_line, vcf_line_of.
  destruct (variant_value_of cols row variant_columns) as [v|]; [|discriminate].
  py_simpl. destruct (parse_variant v) as [[[[c p] r] a]|]; [|discriminate].
  py_simpl.
  intros [[[Hc Hp]%andb_true_iff Hr]%andb_true_iff Ha]%andb_true_iff [= <-].
  exists (c +:+ String tab (p +:+ String tab ("." +:+ String tab (r +:+ String tab a)))).
  split.
  - rewrite !append_assoc.
    change (String tab (p +:+ String tab ("." +:+ String tab (r +:+ String tab a)))
              +:+ String line_feed EmptyString)
      with (String tab ((p +:+ String tab ("." +:+ String tab (r +:+ String tab a)))
              +:+ String line_feed EmptyString)).
    rewrite !append_assoc.
    change (String tab ("." +:+ String tab (r +:+ String tab a))
              +:+ String line_feed EmptyString)
      with (String tab ("." +:+ String tab ((r +:+ String tab a)
              +:+ String line_feed EmptyString))).
    rewrite !append_assoc. reflexivity.
  - rewrite !one_line_append, Hc.
    change (String tab (p +:+ String tab ("." +:+ String tab (r +:+ String tab a))))
      with (String tab EmptyString
              +:+ (p +:+ String tab EmptyString +:+ "." +:+ String tab EmptyString
                     +:+ r +:+ String tab EmptyString +:+ a)).
    by rewrite !one_line_append, Hp, Hr, Ha.
Qed.

Lemma vcf_lines_of_one_line cols rows e written :
  forallb (row_one_line cols) rows = true ->
  vcf_lines_of cols rows = (e, written) ->
  Forall (fun l => exists body,
            l = body +:+ String line_feed EmptyString /\ one_line body = true) written.
Proof.
  revert e written. induction rows as [|row rows IH]; intros e written; simpl.
  - intros _ [= _ <-]. constructor.
  - intros [Hrow Hrows]%andb_true_iff.
    destruct (vcf_line_of cols row) as [line|e0] eqn:Hline;
      [|intros [= _ <-]; constructor].
    destruct (vcf_lines_of cols rows) as [e1 lines'].
    intros [= _ <-]. constructor; [by eapply vcf_line_of_one_line | by eapply IH].
Qed.

Lemma vcf_lines_of_length cols rows lines :
  vcf_lines_of cols rows = (None, lines) -> length lines = length rows.
Proof.
  revert lines. induction rows as [|row rows IH]; intros lines; simpl.
  - by intros [= <-].
  - destruct (vcf_line_of cols row) as [line|e]; [|discriminate].
    destruct (vcf_lines_of cols rows) as [oe lines'].
    intros [= -> <-]. simpl. f_equal. by apply IH.
Qed.

(** A successful [write_vcf] of rows that are one line each leaves one
    line per row at the path. *)
Lemma write_vcf_returned df path files p files' :
  forallb (row_one_line (columns df)) (rows df) = true ->
  write_vcf df path files = (Returned p, files') ->
  p = path /\ exists lines,
    files' = <[path := lines]> files /\ length lines = nrows df.
Proof.
  intros Hone. unfold write_vcf.
  destruct (vcf_lines_of (columns df) (rows df)) as [[e|] lines] eqn:E;
    [discriminate|].
  intros [= <- <-]. split; [done|]. exists lines.
  rewrite (file_lines_written lines) by (by eapply vcf_lines_of_one_line).
  split; [done|]. by apply vcf_lines_of_length in E.
Qed.

(** What [parse_tsv] returns has one cell per line of the submitted file. *)
Lemma parse_tsv_returned files tsv_path vcf_path scores :
  parse_tsv files tsv_path vcf_path = Returned scores ->
  exists vcf, files !! vcf_path = Some vcf /\ length scores = length vcf.
Proof.
  unfold parse_tsv, open_text.
  destruct (files !! tsv_path) as [tsv|]; [|discriminate]. py_simpl.
  destruct (for_each tsv_step tsv ∅) as [d|]; [|discriminate]. py_simpl.
  destruct (files !! vcf_path) as [vcf|]; [|discriminate]. py_simpl.
  rewrite (for_each_total (fun acc x => acc ++ [cell_for d x]))
    by (intros; apply vcf_step_ok).
  simpl. rewrite foldl_snoc_map. intros [= <-]. exists vcf.
  split; [done | apply length_map].
Qed.

(** Renaming the one column of a frame made of a list. *)
Lemma set_columns_of_list values name sdf :
  set_columns (of_list values) [name] = Returned sdf ->
  values <> [] /\ sdf = mk_df [name] (map (fun v => [v]) values).
Proof.
  destruct values as [|v values]; [discriminate|].
  intros [= <-]. split; [discriminate | reflexivity].
Qed.

(** Side by side with a one-column frame of as many rows: one more cell
    at the end of every row. *)
Lemma concat_columns_one df name values :
  well_formed df -> length values = nrows df ->
  concat_columns df (mk_df [name] (map (fun v => [v]) values)) =
    mk_df (columns df ++ [name])
          (zip_with (fun row v => row ++ [v]) (rows df) values).
Proof.
  intros Hwf Hlen. unfold concat_columns, nrows. simpl. f_equal.
  rewrite length_map, Hlen. unfold nrows. rewrite Nat.max_id.
  apply list_eq. intros i. rewrite list_lookup_fmap, lookup_zip_with.
  destruct (decide (i < length (rows df))%nat) as [Hi|Hi].
  - rewrite lookup_seq_lt by done. simpl. unfold row_or_nan. simpl.
    destruct (lookup_lt_is_Some_2 (rows df) i Hi) as [row Hrow].
    destruct (lookup_lt_is_Some_2 values i) as [v Hv]; [by rewrite Hlen|].
    by rewrite Hrow, list_lookup_fmap, Hv.
  - rewrite lookup_seq_ge by lia. simpl.
    by rewrite (lookup_ge_None_2 (rows df)) by lia.
Qed.

Lemma alloc_fresh h df r h' :
  alloc h df = (r, h') -> h !! r = None /\ h' = <[r := df]> h.
Proof.
  unfold alloc. intros [= <- <-]. split; [|done].
  apply not_elem_of_dom, is_fresh.
Qed.

(** C9: when the pipeline returns, the input object and every other
    object that existed are as before, the result is a new object, and its
    content is the input's with one more column, [PHRED_cadd], at the end:
    the same rows in the same order, each with its score as last cell.
    (No identifier holds a line break, and the path of the submitted file
    is not one of the names under which the download saves.) *)
Theorem cadd_pipeline_appends_one_column
    fuel web dataframe vcf_file_path w df result w' :
  frames w !! dataframe = Some df ->
  well_formed df ->
  forallb (row_one_line (columns df)) (rows df) = true ->
  ~ download_name (dirname (vcf_file_path +:+ ".gz")) vcf_file_path ->
  cadd_pipeline fuel web dataframe vcf_file_path w = Some (Returned result, w') ->
  frames w' !! dataframe = Some df /\
  result <> dataframe /\
  (forall r d, frames w !! r = Some d -> frames w' !! r = Some d) /\
  exists scores : list string,
    length scores = nrows df /\
    frames w' !! result =
      Some (mk_df (columns df ++ ["PHRED_cadd"])
                  (zip_with (fun row s => row ++ [PyStr s]) (rows df) scores)).
Proof.
  intros Hdf Hwf Hone Hpath Hrun. unfold cadd_pipeline in Hrun. rewrite Hdf in Hrun.
  destruct (alloc (frames w) df) as [data_copy h1] eqn:Ha1.
  apply alloc_fresh in Ha1 as [Hfresh1 ->].
  destruct (write_vcf df vcf_file_path (files w)) as [[p|e] f1] eqn:Hw;
    [|discriminate].
  apply (write_vcf_returned _ _ _ _ _ Hone) in Hw as (-> & lines & -> & Hlines).
  unfold gzip_file in Hrun. rewrite lookup_insert_eq in Hrun.
  destruct (get_cadd_scores_file fuel web _ _) as [[[tsv|e] f3]|] eqn:Hget;
    [|discriminate..].
  pose proof (get_cadd_scores_file_other _ _ _ _ _ _ _ Hget Hpath) as Hkeep.
  assert (Hgz : vcf_file_path +:+ ".gz" <> vcf_file_path).
  { intros H. apply (f_equal String.length) in H. rewrite length_append in H.
    simpl in H. lia. }
  rewrite lookup_insert_ne, lookup_insert_eq in Hkeep by done.
  destruct (remove (vcf_file_path +:+ ".gz") f3) as [[u|e] f4] eqn:Hrm;
    [|discriminate].
  assert (Hf4 : f4 !! vcf_file_path = Some lines).
  { unfold remove in Hrm. destruct (f3 !! (vcf_file_path +:+ ".gz")); [|discriminate].
    injection Hrm as _ <-. by rewrite lookup_delete_ne. }
  destruct (parse_tsv f4 tsv vcf_file_path) as [scores|e] eqn:Hp; [|discriminate].
  destruct (set_columns _ _) as [sdf|e] eqn:Hs; [|discriminate].
  apply set_columns_of_list in Hs as [_ ->].
  destruct (alloc _ _) as [res h2] eqn:Ha2.
  apply alloc_fresh in Ha2 as [Hfresh2 ->].
  injection Hrun as <- <-. simpl in *.
  apply parse_tsv_returned in Hp as (vcf & Hvcf & Hlen).
  rewrite Hf4 in Hvcf. injection Hvcf as <-.
  assert (Hres : forall r d, frames w !! r = Some d -> r <> res /\ r <> data_copy).
  { intros r d Hr. split; intros ->.
    - rewrite lookup_insert_ne in Hfresh2 by congruence. congruence.
    - congruence. }
  split; [|split; [|split]].
  - destruct (Hres _ _ Hdf). by rewrite !lookup_insert_ne.
  - by destruct (Hres _ _ Hdf).
  - intros r d Hr. destruct (Hres _ _ Hr). by rewrite !lookup_insert_ne.
  - exists scores. split; [lia|]. rewrite lookup_insert_eq. f_equal.
    rewrite concat_columns_one by (done || rewrite length_map; lia).
    by rewrite zip_with_fmap_r.
Qed.

Example cadd_pipeline_demo :
  cadd_pipeline 1 Demo.session_finished 0 "ws/cadd/cadd.vcf" Demo.world_0 =
    Some (Returned 2%nat, Demo.world_1).
Proof. vm_compute. reflexivity. Qed.

Lemma cadd_pipeline_appends_one_column_witness :
  frames Demo.world_1 !! 0%nat = Some Demo.gene_frame /\
  exists scores : list string,
    length scores = 3%nat /\
    frames Demo.world_1 !! 2%nat =
      Some (mk_df ["hg38_gnomad_format"; "gene"; "PHRED_cadd"]
              (zip_with (fun row s => row ++ [PyStr s]) (rows Demo.gene_frame) scores)).
Proof.
  destruct (cadd_pipeline_appends_one_column 1 Demo.session_finished 0%nat
              "ws/cadd/cadd.vcf" Demo.world_0 Demo.gene_frame 2%nat Demo.world_1)
    as (Hin & _ & _ & scores & Hlen & Hout).
  - vm_compute. reflexivity.
  - repeat constructor.
  - vm_compute. reflexivity.
  - intros [x Hx]. vm_compute in Hx. discriminate.
  - vm_compute. reflexivity.
  - split; [exact Hin|]. exists scores. split; [exact Hlen | exact Hout].
Defined.

(** An input without rows makes the pipeline raise: the empty list of
    scores gives a frame without a column to rename. *)
Example cadd_pipeline_no_rows :
  fst <$> cadd_pipeline 1 Demo.session_finished 0 "ws/cadd/cadd.vcf"
    (mk_world (<[0%nat := mk_df ["hg38_gnomad_format"] []]> ∅) ∅) =
  Some (Raised ValueError).
Proof. vm_compute. reflexivity. Qed.

(** An identifier that ends in a line feed puts two lines into the
    submitted file: the scores are two, and the frame returned has a second
    row, without an identifier. *)
Example cadd_pipeline_line_feed :
  (w' ← snd <$> cadd_pipeline 1 Demo.session_finished 0 "ws/cadd/cadd.vcf"
          (mk_world (<[0%nat := mk_df ["hg38_gnomad_format"]
                        [[PyStr ("6-100-A-T" +:+ String Py.line_feed EmptyString)]]]> ∅) ∅);
   frames w' !! 2%nat) =
  Some (mk_df ["hg38_gnomad_format"; "PHRED_cadd"]
          [ [PyStr ("6-100-A-T" +:+ String Py.line_feed EmptyString); PyStr "9.9"];
            [NaN; PyStr "CADD score unavailable"] ]).
Proof. vm_compute. reflexivity. Qed.

End CaddPipeline.

(** ** [get_workspace_apply_cadd] *)

Section ApplyRoute.
Import Route Pandas.

Variable WORKSPACE_DIR : string.

(** Only the empty string is false. *)
Lemma truthy_false s : truthy s = false <-> s = EmptyString.
Proof. destruct s; simpl; split; congruence. Qed.

(** With a true [override], or without a destination, the destination
    ends up holding the freshly scored table. *)
Lemma apply_and_save_replaces fuel web dest override apply_to cadd_dir d
    source result w fresh :
  (truthy override = true \/ tables d !! dest = None) ->
  apply_to <> dest ->
  tables d !! apply_to = Some source ->
  Cadd.cadd_pipeline fuel web 0 (Cadd.path_join cadd_dir "cadd.vcf")
    (Cadd.mk_world (<[0%nat := source]> ∅) (texts d)) = Some (Returned result, w) ->
  Cadd.frames w !! result = Some fresh ->
  apply_and_save fuel web dest override apply_to cadd_dir d =
    Some (None, mk_disk (<[dest := fresh]> (tables d)) (Cadd.files w)).
Proof.
  intros Hcase Hne Hsrc Hrun Hres. unfold apply_and_save, read_csv.
  destruct (tables d !! dest) as [existing|] eqn:Hd.
  - destruct Hcase as [->|?]; [|congruence]. simpl.
    rewrite lookup_delete_ne, Hsrc by done. rewrite Hrun, Hres. simpl.
    by rewrite insert_delete_eq.
  - simpl. by rewrite Hsrc, Hrun, Hres.
Qed.

(** With the empty [override] and a destination that has rows under the
    same columns, the destination ends up holding its rows followed by
    the fresh ones. *)
Lemma apply_and_save_appends fuel web dest apply_to cadd_dir d
    existing source result w fresh :
  tables d !! dest = Some existing ->
  empty existing = false ->
  tables d !! apply_to = Some source ->
  Cadd.cadd_pipeline fuel web 0 (Cadd.path_join cadd_dir "cadd.vcf")
    (Cadd.mk_world (<[0%nat := source]> ∅) (texts d)) = Some (Returned result, w) ->
  Cadd.frames w !! result = Some fresh ->
  columns existing = columns fresh ->
  apply_and_save fuel web dest EmptyString apply_to cadd_dir d =
    Some (None,
          mk_disk (<[dest := mk_df (columns existing) (rows existing ++ rows fresh)]>
                     (tables d))
                  (Cadd.files w)).
Proof.
  intros Hd Hne Hsrc Hrun Hres Hcols. unfold apply_and_save, read_csv.
  rewrite Hd. simpl. rewrite Hsrc, Hrun, Hres, Hne. simpl.
  unfold concat_rows. by rewrite decide_True.
Qed.

End ApplyRoute.

Section ApplyRouteSamples.
Import Route Pandas.

(** C1 on the code: a request with [override=false] on a destination
    that has rows is answered 200, and the destination then holds the
    freshly scored rows only; the rows it had are gone. *)
Theorem override_false_discards_destination :
  get_workspace_apply_cadd "ws" 1 Demo.session_finished "out.csv"
    (Demo.apply_request "false") Demo.disk_0 =
  Some ("CADD algorithm was successfully applied", 200%nat,
        mk_disk (<["ws/u1/out.csv" := Demo.scored_frame]> (tables Demo.disk_0))
                Demo.scoring_texts,
        [Console "info" "Applying CADD algorithm";
         Console "succ" "CADD algorithm was successfully applied";
         WorkspaceUpdate]) /\
  Demo.scored_frame <>
    mk_df (columns Demo.previous_frame)
          (rows Demo.previous_frame ++ rows Demo.scored_frame).
Proof. split; [vm_compute; reflexivity | discriminate]. Qed.

(** The same request with [override=true] has the same effect. *)
Example override_true_replaces_destination :
  get_workspace_apply_cadd "ws" 1 Demo.session_finished "out.csv"
    (Demo.apply_request "true") Demo.disk_0 =
  get_workspace_apply_cadd "ws" 1 Demo.session_finished "out.csv"
    (Demo.apply_request "false") Demo.disk_0.
Proof. vm_compute. reflexivity. Qed.

(** Only the empty value of [override] appends. *)
Example override_empty_appends :
  (fun r => tables r.1.2 !! "ws/u1/out.csv") <$>
    get_workspace_apply_cadd "ws" 1 Demo.session_finished "out.csv"
      (Demo.apply_request EmptyString) Demo.disk_0 =
  Some (Some (mk_df (columns Demo.previous_frame)
                    (rows Demo.previous_frame ++ rows Demo.scored_frame))).
Proof. vm_compute. reflexivity. Qed.

End ApplyRouteSamples.

Section AssignRevelScoresSamples.
Import Sqlite Revel Pandas.

Lemma assign_revel_scores_row_by_row_witness :
  let fs := <["revel.db" := Some Demo.revel_table]> (∅ : gmap string database) in
  exists df' fs' lg,
    assign_revel_scores Demo.sql_numeric Demo.gene_frame_malformed "revel.db" fs =
      (None, df', fs', lg) /\
    loc_get df' 0 "REVEL" = Returned (PyFloat Demo.score_08) /\
    loc_get df' 1 "REVEL" = Returned PyNA /\
    loc_get df' 2 "REVEL" = Returned PyNA.
Proof.
  intros fs.
  destruct (assign_revel_scores_row_by_row Demo.sql_numeric
              Demo.gene_frame_malformed "revel.db" fs 0%nat)
    as (df' & fs' & lg & Hrun & _ & _ & Hcell).
  - repeat constructor.
  - vm_compute. reflexivity.
  - vm_compute. lia.
  - exists df', fs', lg. split; [exact Hrun|]. split; [|split].
    + destruct (Hcell 0%nat (PyStr "6-100-A-T") eq_refl) as (_ & _ & _ & H).
      apply (H eq_refl "6" "100" "A" "T"); [reflexivity | vm_compute; reflexivity].
    + destruct (Hcell 1%nat (PyStr "7-300") eq_refl) as (_ & H & _).
      apply (H eq_refl ValueError). reflexivity.
    + destruct (Hcell 2%nat NaN eq_refl) as (H & _). apply H. reflexivity.
Defined.

(** A frame without the identifier column makes the call raise at its
    first row. *)
Example assign_revel_scores_missing_column :
  (assign_revel_scores Demo.sql_numeric (mk_df ["gene"] [[PyStr "EYS"]]) "revel.db"
     (<["revel.db" := Some Demo.revel_table]> ∅)).1.1.1 = Some KeyError.
Proof. vm_compute. reflexivity. Qed.

(** Without a database every row gets [pd.NA], and the batch still ends. *)
Example assign_revel_scores_no_database :
  (assign_revel_scores Demo.sql_numeric Demo.gene_frame "revel.db" ∅).1.1 =
  (None,
   mk_df ["hg38_gnomad_format"; "gene"; "REVEL"]
     [ [PyStr "6-100-A-T"; PyStr "EYS"; PyNA];
       [PyStr "7-300-A-G"; PyStr "EYS"; PyNA];
       [NaN; PyStr "EYS"; PyNA] ]).
Proof. vm_compute. reflexivity. Qed.

End AssignRevelScoresSamples.
